(** * A shallow embedding of [algos/classification/classifier.py]

    The [Classifier] controller sequences calls into a numerical framework
    (torch), a dashboard client (wandb) and a few helpers of the repository.
    The embedding keeps the controller's own logic as it is written: the
    counters, the gradient-accumulation and evaluation schedule, the mode
    toggles, the pairing of the two loaders and the checkpoint naming.  The
    framework is an interface ([Framework]) the development is parametric in;
    every call into it that the outside world can observe is recorded in a
    trace of events. *)

From Stdlib Require Import ZArith QArith String Ascii List Sorted DecimalString DecimalZ Lia.
From stdpp Require Import gmap strings list fin_maps sorting.

Open Scope Z_scope.

(** ** Python values and built-ins used by the module *)

Module Py.

(** Exceptions the modelled code can raise or let through. *)
Inductive exn :=
| ZeroDivisionError
| AttributeError (obj attr : string)
| FileNotFoundError (file : list string)
| WandbError.

(** [a % b] on Python ints: floor modulo (the sign follows the divisor, as
    [Z.modulo] does), [ZeroDivisionError] when [b] is zero. *)
Definition mod_ (a b : Z) : exn + Z :=
  if b =? 0 then inl ZeroDivisionError else inr (a mod b).

(** [f"{k}"] for an int [k]. *)
Definition str_int (k : Z) : string := NilZero.string_of_int (Z.to_int k).

(** Whitespace stripped by [int(str)] (ASCII range): tab, line feed,
    vertical tab, form feed, carriage return and space. *)
Definition is_space (c : ascii) : bool :=
  let n := nat_of_ascii c in
  ((9 <=? n) && (n <=? 13) || (n =? 32))%nat.

Definition digit_val (c : ascii) : option Z :=
  let n := nat_of_ascii c in
  if ((48 <=? n) && (n <=? 57))%nat then Some (Z.of_nat n - 48) else None.

Fixpoint lstrip (s : string) : string :=
  match s with
  | String c s' => if is_space c then lstrip s' else s
  | EmptyString => EmptyString
  end.

Fixpoint rstrip (s : string) : string :=
  match s with
  | String c s' =>
      match rstrip s' with
      | EmptyString => if is_space c then EmptyString else String c EmptyString
      | r => String c r
      end
  | EmptyString => EmptyString
  end.

(** Decimal digits with single underscores allowed between digits. *)
Fixpoint parse_digits (acc : Z) (after_digit : bool) (s : string) : option Z :=
  match s with
  | EmptyString => if after_digit then Some acc else None
  | String c s' =>
      if Ascii.eqb c "_"%char
      then (if after_digit then parse_digits acc false s' else None)
      else match digit_val c with
           | Some d => parse_digits (10 * acc + d) true s'
           | None => None
           end
  end.

(** [int(s)] on a string of ASCII characters, base 10; [None] stands for
    [ValueError].  Digits and whitespace outside ASCII, which [int] also
    accepts, and the interpreter's limit on the number of digits are not
    modelled. *)
Definition int_of_str (s : string) : option Z :=
  match rstrip (lstrip s) with
  | String "+"%char r => parse_digits 0 false r
  | String "-"%char r => Z.opp <$> parse_digits 0 false r
  | r => parse_digits 0 false r
  end.

(** [np.clip(v, a_min, a_max)] on an integer. *)
Definition clip (v a_min a_max : Z) : Z := Z.min (Z.max v a_min) a_max.

(** A float as the framework produces it. *)
Inductive float :=
| FNaN
| FInf (negative : bool)
| FFinite (q : Q).

(** [q > 0] on a number. *)
Definition Qgt0 (q : Q) : bool := negb (Qle_bool q 0).

(** [x > 0.] on a float: false on NaN. *)
Definition gt_zero (x : float) : bool :=
  match x with
  | FNaN => false
  | FInf negative => negb negative
  | FFinite q => Qgt0 q
  end.

(** [.long()] on a boolean element. *)
Definition long (b : bool) : Z := if b then 1 else 0.

(** [len(l)]. *)
Definition len {A} (l : list A) : Z := Z.of_nat (length l).

End Py.

Import Py.

(** ** Module-level [DEBUG] flag (lines 22-27) *)

(** [environ] is the value of the DEBUG_LVL environment variable when the
    module is loaded, [None] when it is unset (the default [0] is then an
    int, which [int] returns as it is). *)
Definition debug_lvl (environ : option string) : Z :=
  match environ with
  | None => clip 0 0 3
  | Some s =>
      match int_of_str s with
      | Some v => clip v 0 3
      | None => 0
      end
  end.

Definition DEBUG (environ : option string) : bool := 2 <=? debug_lvl environ.

(** ** The monad: state, exceptions, and running out of fuel
    ([Hang] is a computation that does not return). *)

Inductive outcome (A : Type) :=
| Ok (a : A)
| Raise (e : exn)
| Hang.
Arguments Ok {A} a.
Arguments Raise {A} e.
Arguments Hang {A}.

Definition M (S A : Type) : Type := S -> S * outcome A.

Definition ret {S A} (a : A) : M S A := fun s => (s, Ok a).

Definition bind {S A B} (m : M S A) (k : A -> M S B) : M S B :=
  fun s =>
    match m s with
    | (s', Ok a) => k a s'
    | (s', Raise e) => (s', Raise e)
    | (s', Hang) => (s', Hang)
    end.

Definition raise {S A} (e : exn) : M S A := fun s => (s, Raise e).
Definition hang {S A} : M S A := fun s => (s, Hang).
Definition get {S} : M S S := fun s => (s, Ok s).
Definition modify {S} (f : S -> S) : M S unit := fun s => (f s, Ok tt).

#[global] Instance M_ret {S} : MRet (M S) := fun A a => ret a.
#[global] Instance M_bind {S} : MBind (M S) := fun A B k m => bind m k.

(** ** Data model *)

(** The hyper-parameter object [hps], read-only. *)
Record Hps := {
  clip_norm : Q;
  acc_grad_steps : Z;
  eval_every : Z;
  lr : Q;
  fp16 : bool;
  cuda : bool;
  backbone : string;
  pretrained_w_imagenet : bool;
  num_classes : Z;
}.

(** [self.ctx]: autocast on cuda (float16 when [fp16], else float32), or the
    null context. *)
Inductive Ctx :=
| Autocast (float16 : bool)
| NullContext.

(** The dynamic context a forward pass runs under: [with self.ctx] in the
    training part, [with torch.no_grad()] in the evaluation blocks. *)
Inductive Ambient :=
| WithCtx (c : Ctx)
| NoGrad.

(** A value sent to the dashboard: a float metric or the int epoch. *)
Inductive DashVal (S : Type) :=
| DFloat (s : S)
| DInt (z : Z).
Arguments DFloat {S} s.
Arguments DInt {S} z.

(** What [scaler.step(opt)] leaves behind: the scaler's bookkeeping, the
    optimizer's moments, the updated parameters and their gradients. *)
Record StepResult (ScalerState OptState Params Grads : Type) := {
  step_scaler : ScalerState;
  step_opt : OptState;
  step_params : Params;
  step_grads : Grads;
}.
Arguments step_scaler {_ _ _ _} _.
Arguments step_opt {_ _ _ _} _.
Arguments step_params {_ _ _ _} _.
Arguments step_grads {_ _ _ _} _.
Arguments Build_StepResult {_ _ _ _} _ _ _ _.

(** A path as pathlib holds it: the sequence of its components. *)
Abbreviation Path := (list string).

(** The external collaborators: the framework's tensors and numerics, the
    model class and the metrics helper of the repository, and the dashboard.
    [wandb_log d step] tells whether the dashboard accepts the record; when it
    does not, the call raises. *)
Class Framework := {
  Input : Type;
  Labels : Type;
  Params : Type;
  Grads : Type;
  Loss : Type;
  Scalar : Type;
  OptState : Type;
  ScalerState : Type;
  (* algos.classification.models *)
  ClassifierModelTenChan : string -> bool -> Z -> Params;
  model_call : Params -> bool -> Ambient -> Input -> list float * Params;
  no_grads : Grads;
  (* torch.nn, torch.optim, torch.cuda.amp *)
  BCEWithLogitsLoss : list float -> Labels -> Loss;
  loss_idiv : Loss -> Z -> Loss;
  loss_item : Loss -> Scalar;
  Adam : Params -> Q -> OptState;
  GradScaler : bool -> ScalerState;
  scaled_backward : ScalerState -> Loss -> Grads -> Grads;
  scaler_unscale_ : ScalerState -> Grads -> ScalerState * Grads;
  clip_grad_norm_ : Grads -> Q -> Grads;
  scaler_step : ScalerState -> OptState -> Params -> Grads ->
                StepResult ScalerState OptState Params Grads;
  scaler_update : ScalerState -> ScalerState;
  (* helpers.metrics_util *)
  compute_classif_eval_metrics : Labels -> list Z -> gmap string Scalar;
  (* wandb *)
  wandb_log : gmap string (DashVal Scalar) -> Z -> bool;
}.

Section Classifier.

Context {F : Framework}.

(** The DEBUG_LVL environment variable at module load time. *)
Variable environ_DEBUG_LVL : option string.

(** A batch as a loader yields it: [(x, true_y)].  A loader is the list of
    the batches one pass over it yields, the same at every pass; [len] of
    the loader is the length of that list. *)
Definition Batch : Type := Input * Labels.

(** [self.model]: its state dict, its mode flag and the accumulated [.grad]
    of its parameters. *)
Record Model := {
  state_dict : Params;
  training : bool;
  grad : Grads;
}.

(** The attributes [__init__] sets ([self.criterion] is stateless and is
    called through [BCEWithLogitsLoss]).  There is no [scheduler]. *)
Record Classifier := {
  device : string;
  hps : Hps;
  iters_so_far : Z;
  epochs_so_far : Z;
  model : Model;
  opt : OptState;
  ctx : Ctx;
  scaler : ScalerState;
}.

(** A value of a metrics dict: a tensor (has [.item()]) or a plain number. *)
Inductive MetricVal :=
| MTensor (l : Loss)
| MPlain (s : Scalar).

Inductive LogMsg :=
| MsgClipDisabled (clip_norm : Q)
| MsgModuleInfo (name : string) (m : Params).

(** Calls the outside world can observe, in the order they are made. *)
Inductive event :=
| EvLoggerInfo (m : LogMsg)
| EvBackward
| EvUnscale
| EvClipGradNorm (max_norm : Q)
| EvScalerStep
| EvScalerUpdate
| EvZeroGrad
| EvModelEval
| EvModelTrain
| EvMetrics (true_y : Labels) (pred_y : list Z)
| EvWandbLog (d : gmap string (DashVal Scalar)) (step : Z)
| EvTorchSave (file : Path)
| EvTorchLoad (file : Path).

(** What lies outside the object: the checkpoint files and the trace. *)
Record Ext := {
  files : gmap Path Params;
  trace : list event;
}.

Record World := {
  self : Classifier;
  ext : Ext;
}.

(** Lifting a Python built-in that may raise. *)
Definition lift_py {S A} (r : exn + A) : M S A :=
  match r with
  | inl e => raise e
  | inr a => ret a
  end.

(** *** Attribute writes on [self] and on the world *)

Definition with_model (m : Model) (c : Classifier) : Classifier :=
  {| device := device c; hps := hps c;
     iters_so_far := iters_so_far c; epochs_so_far := epochs_so_far c;
     model := m; opt := opt c; ctx := ctx c; scaler := scaler c |}.

Definition with_opt (o : OptState) (c : Classifier) : Classifier :=
  {| device := device c; hps := hps c;
     iters_so_far := iters_so_far c; epochs_so_far := epochs_so_far c;
     model := model c; opt := o; ctx := ctx c; scaler := scaler c |}.

Definition with_scaler (sc : ScalerState) (c : Classifier) : Classifier :=
  {| device := device c; hps := hps c;
     iters_so_far := iters_so_far c; epochs_so_far := epochs_so_far c;
     model := model c; opt := opt c; ctx := ctx c; scaler := sc |}.

Definition with_iters_so_far (k : Z) (c : Classifier) : Classifier :=
  {| device := device c; hps := hps c;
     iters_so_far := k; epochs_so_far := epochs_so_far c;
     model := model c; opt := opt c; ctx := ctx c; scaler := scaler c |}.

Definition with_epochs_so_far (k : Z) (c : Classifier) : Classifier :=
  {| device := device c; hps := hps c;
     iters_so_far := iters_so_far c; epochs_so_far := k;
     model := model c; opt := opt c; ctx := ctx c; scaler := scaler c |}.

Definition with_state_dict (p : Params) (m : Model) : Model :=
  {| state_dict := p; training := training m; grad := grad m |}.

Definition with_training (b : bool) (m : Model) : Model :=
  {| state_dict := state_dict m; training := b; grad := grad m |}.

Definition with_grad (g : Grads) (m : Model) : Model :=
  {| state_dict := state_dict m; training := training m; grad := g |}.

Definition get_self : M World Classifier := fun w => (w, Ok (self w)).

Definition update_self (f : Classifier -> Classifier) : M World unit :=
  modify (fun w => {| self := f (self w); ext := ext w |}).

Definition emit_ext (e : event) : M Ext unit :=
  modify (fun x => {| files := files x; trace := trace x ++ [e] |}).

Definition emit (e : event) : M World unit :=
  modify (fun w => {| self := self w;
                      ext := {| files := files (ext w);
                                trace := trace (ext w) ++ [e] |} |}).

(** *** Calls into the collaborators *)

(** [wandb.log(d, step=step)]: the call is made, and raises when the
    dashboard fails. *)
Definition wandb_log_call (d : gmap string (DashVal Scalar)) (step : Z)
  : M World unit :=
  emit (EvWandbLog d step) ;;
  if wandb_log d step then ret tt else raise WandbError.

(** [self.model(x)]: a forward pass in the model's current mode; the state
    dict may change (buffers in training mode). *)
Definition model_forward (amb : Ambient) (x : Input) : M World (list float) :=
  c ← get_self;
  let out := model_call (state_dict (model c)) (training (model c)) amb x in
  update_self (with_model (with_state_dict (snd out) (model c))) ;;
  ret (fst out).

(** [self.model.eval()] and [self.model.train()]. *)
Definition model_eval : M World unit :=
  emit EvModelEval ;;
  update_self (fun c => with_model (with_training false (model c)) c).

Definition model_train : M World unit :=
  emit EvModelTrain ;;
  update_self (fun c => with_model (with_training true (model c)) c).

(** [self.scaler.scale(loss).backward()]: gradients accumulate. *)
Definition backward (loss : Loss) : M World unit :=
  emit EvBackward ;;
  update_self (fun c =>
    with_model (with_grad (scaled_backward (scaler c) loss (grad (model c)))
                          (model c)) c).

(** [self.scaler.unscale_(self.opt)]. *)
Definition unscale_ : M World unit :=
  emit EvUnscale ;;
  update_self (fun c =>
    let out := scaler_unscale_ (scaler c) (grad (model c)) in
    with_scaler (fst out) (with_model (with_grad (snd out) (model c)) c)).

(** [cg.clip_grad_norm_(self.model.parameters(), max_norm)]. *)
Definition clip_grad_norm (max_norm : Q) : M World unit :=
  emit (EvClipGradNorm max_norm) ;;
  update_self (fun c =>
    with_model (with_grad (clip_grad_norm_ (grad (model c)) max_norm)
                          (model c)) c).

(** [self.scaler.step(self.opt)]. *)
Definition step : M World unit :=
  emit EvScalerStep ;;
  update_self (fun c =>
    let out :=
      scaler_step (scaler c) (opt c) (state_dict (model c)) (grad (model c)) in
    with_scaler (step_scaler out)
      (with_opt (step_opt out)
         (with_model (with_grad (step_grads out)
                        (with_state_dict (step_params out) (model c))) c))).

(** [self.scaler.update()]. *)
Definition update : M World unit :=
  emit EvScalerUpdate ;;
  update_self (fun c => with_scaler (scaler_update (scaler c)) c).

(** [self.opt.zero_grad()]. *)
Definition zero_grad : M World unit :=
  emit EvZeroGrad ;;
  update_self (fun c => with_model (with_grad no_grads (model c)) c).

(** [compute_classif_eval_metrics(true_y, pred_y)]. *)
Definition classif_eval_metrics (true_y : Labels) (pred_y : list Z)
  : M World (gmap string Scalar) :=
  emit (EvMetrics true_y pred_y) ;;
  ret (compute_classif_eval_metrics true_y pred_y).

(** [.pin_memory().to(device, non_blocking=True)] or [.to(device)]: the
    batch moves, its values do not change. *)
Definition to_device (cuda : bool) (b : Batch) : Batch :=
  if cuda then b else b.

(** ** The methods of [Classifier] *)

(** [__init__] (lines 32-63).  The constructor runs outside any object: its
    state is the outside world and it returns the new object. *)
Definition __init__ (device : string) (hps : Hps) : M Ext Classifier :=
  (if Qle_bool (clip_norm hps) 0
   then emit_ext (EvLoggerInfo (MsgClipDisabled (clip_norm hps)))
   else ret tt) ;;
  let model :=
    {| state_dict := ClassifierModelTenChan (backbone hps)
                       (pretrained_w_imagenet hps) (num_classes hps);
       training := true;
       grad := no_grads |} in
  let opt := Adam (state_dict model) (lr hps) in
  let ctx := if cuda hps then Autocast (fp16 hps) else NullContext in
  let scaler := GradScaler (fp16 hps) in
  emit_ext (EvLoggerInfo (MsgModuleInfo "classifier_model" (state_dict model))) ;;
  ret {| device := device; hps := hps;
         iters_so_far := 0; epochs_so_far := 0;
         model := model; opt := opt; ctx := ctx; scaler := scaler |}.

(** [compute_loss] (lines 65-69).  [amb] is the context the caller wraps the
    call in. *)
Definition compute_loss (amb : Ambient) (x : Input) (true_y : Labels)
  : M World (gmap string MetricVal * Loss * list float) :=
  pred_y ← model_forward amb x;
  let loss := BCEWithLogitsLoss pred_y true_y in
  let metrics : gmap string MetricVal := {[ "loss"%string := MTensor loss ]} in
  ret (metrics, loss, pred_y).

(** [v.item() if hasattr(v, 'item') else v]. *)
Definition item (v : MetricVal) : DashVal Scalar :=
  match v with
  | MTensor l => DFloat (loss_item l)
  | MPlain s => DFloat s
  end.

(** [send_to_dash] (lines 71-74). *)
Definition send_to_dash (metrics : gmap string MetricVal) (mode : string)
  : M World unit :=
  c ← get_self;
  let wandb_dict : gmap string (DashVal Scalar) :=
    kmap (fun k => mode +:+ "/" +:+ k) (item <$> metrics) in
  let wandb_dict := <[ "epoch"%string := DInt (epochs_so_far c) ]> wandb_dict in
  wandb_log_call wandb_dict (iters_so_far c).

(** [itertools.chain.from_iterable(itertools.repeat(val_dataloader))]: the
    state is the active inner iterator, [None] when there is none.  Each turn
    of [next]'s loop either yields from the active iterator or, when it is
    exhausted, drops it and asks [repeat] for the loader again; [fuel] bounds
    the turns. *)
Fixpoint chain_next (fuel : nat) (val_dataloader : list Batch)
    (active : option (list Batch)) : option (Batch * option (list Batch)) :=
  match fuel with
  | O => None
  | S fuel' =>
      match active with
      | None => chain_next fuel' val_dataloader (Some val_dataloader)
      | Some [] => chain_next fuel' val_dataloader None
      | Some (b :: rest) => Some (b, Some rest)
      end
  end.

(** Lines 98-109: the optimizer step at an accumulation boundary. *)
Definition train_opt_block (n i : Z) (t_metrics : gmap string MetricVal)
  : M World unit :=
  c ← get_self;
  r ← lift_py (mod_ (i + 1) (acc_grad_steps (hps c)));
  if (r =? 0) || (i + 1 =? n) then
    (if Qgt0 (clip_norm (hps c))
     then unscale_ ;; clip_grad_norm (clip_norm (hps c))
     else ret tt) ;;
    step ;;
    update ;;
    zero_grad ;;
    send_to_dash t_metrics "train"
  else ret tt.

(** Lines 111-133: the validation block. *)
Definition train_eval_block (n i : Z) (v : Batch) : M World unit :=
  c ← get_self;
  r ← lift_py (mod_ (i + 1) (eval_every (hps c)));
  if (r =? 0) || (i + 1 =? n) then
    model_eval ;;
    let v := to_device (cuda (hps c)) v in
    let v_x := fst v in
    let v_true_y := snd v in
    '(v_metrics, _, v_pred_y) ← compute_loss NoGrad v_x v_true_y;
    let v_pred_y := long <$> (gt_zero <$> v_pred_y) in
    scores ← classif_eval_metrics v_true_y v_pred_y;
    let v_metrics := (MPlain <$> scores) ∪ v_metrics in
    send_to_dash v_metrics "val" ;;
    model_train
  else ret tt.

(** Lines 135-137: the debug branch reads [self.scheduler]. *)
Definition train_debug_block : M World unit :=
  if DEBUG environ_DEBUG_LVL
  then raise (AttributeError "Classifier" "scheduler")
  else ret tt.

(** The body of the loop of [train] (lines 86-139) at index [i] on the pair
    of a training batch and a validation batch; [n] is
    [len(train_dataloader)]. *)
Definition train_body (n i : Z) (t v : Batch) : M World unit :=
  c ← get_self;
  let t := to_device (cuda (hps c)) t in
  let t_x := fst t in
  let t_true_y := snd t in
  '(t_metrics, t_loss, _) ← compute_loss (WithCtx (ctx c)) t_x t_true_y;
  (* [t_loss /= acc_grad_steps] divides the tensor in place: the entry
     [t_metrics['loss']] is the same tensor *)
  let t_loss := loss_idiv t_loss (acc_grad_steps (hps c)) in
  let t_metrics := <[ "loss"%string := MTensor t_loss ]> t_metrics in
  backward t_loss ;;
  train_opt_block n i t_metrics ;;
  train_eval_block n i v ;;
  train_debug_block ;;
  update_self (fun c => with_iters_so_far (iters_so_far c + 1) c).

(** [zip(tqdm(train_dataloader), chain..., strict=False)] under [enumerate]:
    [zip] asks the training iterator first and stops when it is exhausted,
    then asks the chained validation stream. *)
Fixpoint train_loop (fuel : nat) (n i : Z) (train_it : list Batch)
    (val_dataloader : list Batch) (active : option (list Batch))
  : M World unit :=
  match train_it with
  | [] => ret tt
  | t :: train_it' =>
      match chain_next fuel val_dataloader active with
      | None => hang
      | Some (v, active') =>
          train_body n i t v ;;
          train_loop fuel n (i + 1) train_it' val_dataloader active'
      end
  end.

(** [train] (lines 76-141). *)
Definition train (fuel : nat) (train_dataloader val_dataloader : list Batch)
  : M World unit :=
  train_loop fuel (len train_dataloader) 0 train_dataloader val_dataloader None ;;
  update_self (fun c => with_epochs_so_far (epochs_so_far c + 1) c).

(** The body of the loop of [test] (lines 151-165). *)
Definition test_body (b : Batch) : M World unit :=
  c ← get_self;
  let b := to_device (cuda (hps c)) b in
  let x := fst b in
  let true_y := snd b in
  '(metrics, _, pred_y) ← compute_loss NoGrad x true_y;
  let pred_y := long <$> (gt_zero <$> pred_y) in
  scores ← classif_eval_metrics true_y pred_y;
  let metrics := (MPlain <$> scores) ∪ metrics in
  send_to_dash metrics "test".

Fixpoint test_loop (it : list Batch) : M World unit :=
  match it with
  | [] => ret tt
  | b :: it' => test_body b ;; test_loop it'
  end.

(** [test] (lines 143-167). *)
Definition test (dataloader : list Batch) : M World unit :=
  model_eval ;;
  test_loop dataloader ;;
  model_train.

(** [Path(path) / f"model_{epochs_so_far}.tar"]. *)
Definition model_path (path : Path) (epochs_so_far : Z) : Path :=
  path ++ ["model_" +:+ str_int epochs_so_far +:+ ".tar"].

(** [torch.save(obj, file)] and [torch.load(file)]. *)
Definition torch_save (obj : Params) (file : Path) : M World unit :=
  emit (EvTorchSave file) ;;
  modify (fun w => {| self := self w;
                      ext := {| files := <[ file := obj ]> (files (ext w));
                                trace := trace (ext w) |} |}).

Definition torch_load (file : Path) : M World Params :=
  emit (EvTorchLoad file) ;;
  w ← get;
  match files (ext w) !! file with
  | Some obj => ret obj
  | None => raise (FileNotFoundError file)
  end.

(** [save] (lines 169-171). *)
Definition save (path : Path) (epochs_so_far : Z) : M World unit :=
  let model_dest_path := model_path path epochs_so_far in
  c ← get_self;
  torch_save (state_dict (model c)) model_dest_path.

(** [load] (lines 173-175). *)
Definition load (path : Path) (epochs_so_far : Z) : M World unit :=
  let model_orig_path := model_path path epochs_so_far in
  sd ← torch_load model_orig_path;
  update_self (fun c => with_model (with_state_dict sd (model c)) c).

(** ** Callers *)

(** What a caller can ask of a constructed [Classifier]. *)
Inductive call :=
| CallTrain (fuel : nat) (train_dataloader val_dataloader : list Batch)
| CallTest (dataloader : list Batch)
| CallSave (path : Path) (epochs_so_far : Z)
| CallLoad (path : Path) (epochs_so_far : Z)
| CallComputeLoss (amb : Ambient) (x : Input) (true_y : Labels)
| CallSendToDash (metrics : gmap string MetricVal) (mode : string).

Definition run_call (c : call) : M World unit :=
  match c with
  | CallTrain fuel tl vl => train fuel tl vl
  | CallTest dl => test dl
  | CallSave path k => save path k
  | CallLoad path k => load path k
  | CallComputeLoss amb x true_y => compute_loss amb x true_y ;; ret tt
  | CallSendToDash metrics mode => send_to_dash metrics mode
  end.

(** A caller that makes the calls one after the other and catches what
    they raise; a call that does not return ends the sequence. *)
Fixpoint run_calls (cs : list call) (w : World) : World :=
  match cs with
  | [] => w
  | c :: cs' =>
      match run_call c w with
      | (w', Hang) => w'
      | (w', _) => run_calls cs' w'
      end
  end.

(** ** Reading a run *)

(** The events a run from [w] to [w'] added to the trace. *)
Definition new_events (w w' : World) : list event :=
  drop (length (trace (ext w))) (trace (ext w')).

Definition is_backward (e : event) : bool :=
  match e with EvBackward => true | _ => false end.
Definition is_unscale (e : event) : bool :=
  match e with EvUnscale => true | _ => false end.
Definition is_clip (e : event) : bool :=
  match e with EvClipGradNorm _ => true | _ => false end.
Definition is_step (e : event) : bool :=
  match e with EvScalerStep => true | _ => false end.
Definition is_update (e : event) : bool :=
  match e with EvScalerUpdate => true | _ => false end.
Definition is_zero_grad (e : event) : bool :=
  match e with EvZeroGrad => true | _ => false end.

(** A dashboard record of training metrics carries the key [train/loss]. *)
Definition is_train_log (e : event) : bool :=
  match e with
  | EvWandbLog d _ =>
      match d !! "train/loss"%string with Some _ => true | None => false end
  | _ => false
  end.

(** The batch indices at which an event satisfying [p] occurs: every
    backward pass opens the next batch, [i] is the index of the batch that
    is open ([-1] before the first backward pass). *)
Fixpoint batch_indices (p : event -> bool) (i : Z) (tr : list event) : list Z :=
  match tr with
  | [] => []
  | e :: tr' =>
      if is_backward e then batch_indices p (i + 1) tr'
      else if p e then i :: batch_indices p i tr'
      else batch_indices p i tr'
  end.

(** The number of backward passes in a trace. *)
Fixpoint count_backward (tr : list event) : Z :=
  match tr with
  | [] => 0
  | e :: tr' => (if is_backward e then 1 else 0) + count_backward tr'
  end.

(** The calls of an optimizer step (lines 104-108), and the two calls of
    gradient clipping (lines 101-102). *)
Definition opt_calls : list (event -> bool) :=
  [is_step; is_update; is_zero_grad; is_train_log].
Definition clip_calls : list (event -> bool) :=
  [is_unscale; is_clip].

(** Both counters are the same in [w] and [w']. *)
Definition same_counters (w w' : World) : Prop :=
  iters_so_far (self w') = iters_so_far (self w) /\
  epochs_so_far (self w') = epochs_so_far (self w).

(** The run from [w] to [w'] only added events, all of which satisfy [P]. *)
Definition appends (P : event -> Prop) (w w' : World) : Prop :=
  exists E, trace (ext w') = trace (ext w) ++ E /\ Forall P E.

(** Thresholding a logit at zero. *)
Definition predicted_class (logit : float) : Z :=
  if gt_zero logit then 1 else 0.

(** A call of the metrics helper compares the labels of one of [batches]
    with the thresholded logits of an eval-mode forward pass on its input. *)
Definition metrics_ok (batches : list Batch) (e : event) : Prop :=
  match e with
  | EvMetrics true_y pred_y =>
      exists x p, (x, true_y) ∈ batches /\
        pred_y = predicted_class <$> fst (model_call p false NoGrad x)
  | _ => True
  end.

(** Neither gradient unscaling nor gradient clipping. *)
Definition no_clip (e : event) : Prop :=
  is_unscale e = false /\ is_clip e = false.

(** Every training batch with the validation batch at its position in the
    validation loader repeated end to end (as many times as there are
    training batches, which is enough); [zip] stops at the shorter list. *)
Definition cyclic_pairs (train_dataloader val_dataloader : list Batch)
  : list (Batch * Batch) :=
  zip train_dataloader
      (concat (replicate (length train_dataloader) val_dataloader)).

(** What the active inner iterator of the chain still has to yield. *)
Definition pending (active : option (list Batch)) : list Batch :=
  default [] active.

(** The loop body on a given list of pairs, from index [i]. *)
Fixpoint run_pairs (n i : Z) (pairs : list (Batch * Batch)) : M World unit :=
  match pairs with
  | [] => ret tt
  | (t, v) :: pairs' => train_body n i t v ;; run_pairs n (i + 1) pairs'
  end.

(** The condition of lines 98 and 111 at index [i], for a non-zero period. *)
Definition fires (period n i : Z) : bool :=
  ((i + 1) mod period =? 0) || (i + 1 =? n).

(** ** Reading a run: evaluation, dashboard records, checkpoints *)

Definition is_model_eval (e : event) : bool :=
  match e with EvModelEval => true | _ => false end.
Definition is_model_train (e : event) : bool :=
  match e with EvModelTrain => true | _ => false end.
Definition is_metrics (e : event) : bool :=
  match e with EvMetrics _ _ => true | _ => false end.

(** A dashboard record of validation metrics carries the key [val/loss]. *)
Definition is_val_log (e : event) : bool :=
  match e with
  | EvWandbLog d _ =>
      match d !! "val/loss"%string with Some _ => true | None => false end
  | _ => false
  end.

(** The calls of a validation block (lines 113-133). *)
Definition eval_calls : list (event -> bool) :=
  [is_model_eval; is_metrics; is_val_log; is_model_train].

(** The calls that make up training: backward passes and everything the
    optimizer step does to the gradients and the parameters. *)
Definition training_calls : list (event -> bool) :=
  [is_backward; is_unscale; is_clip; is_step; is_update; is_zero_grad].

Definition no_training_call (e : event) : Prop :=
  Forall (fun p => p e = false) training_calls.

(** Neither [torch.save] nor [torch.load]. *)
Definition no_file_call (e : event) : Prop :=
  match e with
  | EvTorchSave _ | EvTorchLoad _ => False
  | _ => True
  end.

(** The record [send_to_dash] builds from a metrics dict. *)
Definition dash_record (mode : string) (metrics : gmap string MetricVal)
    (epoch : Z) : gmap string (DashVal Scalar) :=
  <[ "epoch"%string := DInt epoch ]>
    (kmap (fun k => mode +:+ "/" +:+ k) (item <$> metrics)).

(** A dashboard record published at step [s] for epoch [ep]. *)
Definition logged_at (ep s : Z) (e : event) : Prop :=
  match e with
  | EvWandbLog d s' => s' = s /\ d !! "epoch"%string = Some (DInt ep)
  | _ => True
  end.

(** The step indices of the dashboard records of a trace, in order. *)
Definition log_steps (tr : list event) : list Z :=
  omap (fun e => match e with EvWandbLog _ s => Some s | _ => None end) tr.

(** The parts of the object that neither training nor testing writes. *)
Definition same_setup (w w' : World) : Prop :=
  hps (self w') = hps (self w) /\
  device (self w') = device (self w) /\
  ctx (self w') = ctx (self w) /\
  files (ext w') = files (ext w).

(** The parts of the object that only training writes. *)
Definition same_training_state (w w' : World) : Prop :=
  grad (model (self w')) = grad (model (self w)) /\
  opt (self w') = opt (self w) /\
  scaler (self w') = scaler (self w) /\
  iters_so_far (self w') = iters_so_far (self w) /\
  epochs_so_far (self w') = epochs_so_far (self w).

(** A run that only evaluates: no call of training, no checkpoint call,
    and nothing written that training or the constructor writes. *)
Definition evaluation_only (w w' : World) : Prop :=
  same_setup w w' /\ same_training_state w w' /\
  appends (fun e => no_training_call e /\ no_file_call e) w w'.

(** The dashboard records of a run from [w] to [w'] come in non-decreasing
    step order, at steps between the iteration counts of [w] and [w'], all
    for the epoch of [w], which the run does not change. *)
Definition logs_in_order (w w' : World) : Prop :=
  iters_so_far (self w) <= iters_so_far (self w') /\
  epochs_so_far (self w') = epochs_so_far (self w) /\
  exists E,
    trace (ext w') = trace (ext w) ++ E /\
    StronglySorted Z.le (log_steps E) /\
    Forall (fun s => iters_so_far (self w) <= s <= iters_so_far (self w'))
           (log_steps E) /\
    Forall (fun e => match e with
                     | EvWandbLog d _ =>
                         d !! "epoch"%string
                         = Some (DInt (epochs_so_far (self w)))
                     | _ => True
                     end) E.

(** A call that does not write the checkpoint [file]. *)
Definition keeps_file (file : Path) (c : call) : Prop :=
  match c with
  | CallSave path k => model_path path k <> file
  | _ => True
  end.

End Classifier.

(** ** A small concrete framework

    Used to run the embedding on concrete inputs.  Tensors are lists of
    integers, the model has a single integer weight, and the dashboard
    accepts every record. *)
Module Demo.

Definition toy_forward (p : Z) (training : bool) (amb : Ambient) (x : list Z)
  : list float * Z :=
  ((fun v => FFinite (inject_Z (p * v))) <$> x, if training then p + 1 else p).

Definition toy (dash : gmap string (DashVal Z) -> Z -> bool) : Framework := {|
  Input := list Z;
  Labels := list Z;
  Params := Z;
  Grads := Z;
  Loss := Z;
  Scalar := Z;
  OptState := Z;
  ScalerState := Z;
  ClassifierModelTenChan := fun _ _ k => k;
  model_call := toy_forward;
  no_grads := 0;
  BCEWithLogitsLoss := fun pred y => Z.of_nat (length pred) + Z.of_nat (length y);
  loss_idiv := fun l k => l `div` k;
  loss_item := fun l => l;
  Adam := fun _ _ => 0;
  GradScaler := fun enabled => if enabled then 65536 else 1;
  scaled_backward := fun sc l g => g + sc * l;
  scaler_unscale_ := fun sc g => (sc, g `div` sc);
  clip_grad_norm_ := fun g _ => Z.min g 1;
  scaler_step := fun sc o p g =>
    {| step_scaler := sc; step_opt := o + 1; step_params := p - g;
       step_grads := g |};
  scaler_update := fun sc => sc;
  compute_classif_eval_metrics := fun y pred =>
    {[ "accuracy"%string := Z.of_nat (length (filter (fun v => v = 1) pred)) ]};
  wandb_log := dash;
|}.

(** A dashboard that is always up, and one that rejects validation and
    test records. *)
Definition dash_up : gmap string (DashVal Z) -> Z -> bool := fun _ _ => true.
Definition dash_no_eval : gmap string (DashVal Z) -> Z -> bool :=
  fun d _ =>
    match d !! "val/loss"%string, d !! "test/loss"%string with
    | None, None => true
    | _, _ => false
    end.

Definition hps0 : Hps := {|
  clip_norm := 0;
  acc_grad_steps := 2;
  eval_every := 3;
  lr := 1 # 1000;
  fp16 := false;
  cuda := false;
  backbone := "resnet18";
  pretrained_w_imagenet := false;
  num_classes := 1;
|}.

Definition ext0 (dash : gmap string (DashVal Z) -> Z -> bool)
  : @Ext (toy dash) := {| files := ∅; trace := [] |}.

(** The world after [Classifier("cpu", h)] is constructed. *)
Definition world_of (dash : gmap string (DashVal Z) -> Z -> bool) (h : Hps)
  : @World (toy dash) :=
  let r := @__init__ (toy dash) "cpu" h (ext0 dash) in
  let c :=
    match snd r with
    | Ok c => c
    | _ =>
        @Build_Classifier (toy dash) "" h 0 0
          (@Build_Model (toy dash) 0 true 0) 0 NullContext 1
    end in
  @Build_World (toy dash) c (fst r).

Definition w0 : @World (toy dash_up) := world_of dash_up hps0.

(** The same object in front of the dashboard that rejects evaluation
    records. *)
Definition w1 : @World (toy dash_no_eval) := world_of dash_no_eval hps0.

(** The same hyper-parameters with a zero accumulation period, and with a
    zero evaluation period. *)
Definition hps_acc0 : Hps := {|
  clip_norm := 0;
  acc_grad_steps := 0;
  eval_every := 3;
  lr := 1 # 1000;
  fp16 := false;
  cuda := false;
  backbone := "resnet18";
  pretrained_w_imagenet := false;
  num_classes := 1;
|}.

Definition hps_eval0 : Hps := {|
  clip_norm := 0;
  acc_grad_steps := 2;
  eval_every := 0;
  lr := 1 # 1000;
  fp16 := false;
  cuda := false;
  backbone := "resnet18";
  pretrained_w_imagenet := false;
  num_classes := 1;
|}.

Definition w_acc0 : @World (toy dash_up) := world_of dash_up hps_acc0.
Definition w_eval0 : @World (toy dash_up) := world_of dash_up hps_eval0.

(** Five training batches and two validation batches. *)
Definition train5 : list (list Z * list Z) :=
  [([1], [1]); ([2], [0]); ([3], [1]); ([-4], [0]); ([5], [1])].
Definition val2 : list (list Z * list Z) :=
  [([1; -1], [1; 0]); ([0; 2], [0; 1])].

End Demo.

(** * Properties *)

Section Proofs.

Context {F : Framework}.

(** The DEBUG_LVL environment variable the module was loaded with. *)
Variable dbg : option string.

(** ** Symbolic execution of the straight-line blocks *)

Lemma to_device_id cuda (b : Batch) : to_device cuda b = b.
Proof. by destruct cuda. Qed.

#[local] Instance prefix_inj (mode : string) :
  Inj (=) (=) (fun k : string => mode +:+ "/" +:+ k).
Proof.
  intros k1 k2 Hk.
  apply (inj (String.append mode)) in Hk.
  by apply (inj (String.append "/")) in Hk.
Qed.

Ltac exec_step :=
  match goal with
  | |- context [if ?x then _ else _] =>
      lazymatch x with
      | context [if _ then _ else _] => fail
      | _ => destruct x eqn:?
      end
  | |- context [match ?x with _ => _ end] =>
      lazymatch x with
      | context [match _ with _ => _ end] => fail
      | _ => destruct x eqn:?
      end
  end.

Ltac unfold_ops :=
  unfold train_body, train_opt_block, train_eval_block, train_debug_block,
    test_body, compute_loss, send_to_dash, wandb_log_call, model_forward,
    model_eval, model_train, backward, unscale_, clip_grad_norm, step, update,
    zero_grad, classif_eval_metrics, lift_py, mod_,
    get_self, update_self, emit, modify, get, raise, hang,
    mbind, M_bind, bind, mret, M_ret, ret in *.

Ltac exec :=
  unfold_ops; cbn; rewrite ?to_device_id in *;
  repeat (exec_step; cbn in *; rewrite ?to_device_id in * ).

(** Branches a hypothesis rules out. *)
Ltac absurd_branch :=
  match goal with
  | H : (?a =? 0) = true, H' : ?a <> 0 |- _ =>
      apply Z.eqb_eq in H; contradiction
  | Hd : forall d s, wandb_log d s = true, H : wandb_log _ _ = false |- _ =>
      rewrite Hd in H; discriminate
  | H : ?b = true, H' : ?b = false |- _ => congruence
  | H : true = false |- _ => discriminate H
  | H : false = true |- _ => discriminate H
  end.

(** Which dashboard records are training records. *)
Lemma is_train_log_train (m : gmap string MetricVal) l ep st :
  is_train_log
    (EvWandbLog (<[ "epoch"%string := DInt ep ]>
                   (kmap (fun k : string => "train" +:+ "/" +:+ k)
                      (item <$> <[ "loss"%string := l ]> m))) st) = true.
Proof.
  unfold is_train_log. rewrite lookup_insert_ne by done.
  change "train/loss"%string with ((fun k => "train" +:+ "/" +:+ k) "loss"%string).
  by rewrite (lookup_kmap _), lookup_fmap, lookup_insert_eq.
Qed.

Lemma is_train_log_val (m : gmap string MetricVal) ep st :
  is_train_log
    (EvWandbLog (<[ "epoch"%string := DInt ep ]>
                   (kmap (fun k : string => "val" +:+ "/" +:+ k)
                      (item <$> m))) st) = false.
Proof.
  unfold is_train_log. rewrite lookup_insert_ne by done.
  assert (kmap (fun k : string => "val" +:+ "/" +:+ k) (item <$> m)
            !! "train/loss"%string = None) as ->; [|done].
  apply lookup_kmap_None; [apply _|]. intros k Hk. discriminate Hk.
Qed.

Arguments is_train_log : simpl never.

(** ** What the loop body adds to the trace *)

Lemma train_body_hps n i t v w :
  hps (self (train_body dbg n i t v w).1) = hps (self w).
Proof. exec; reflexivity. Qed.

Lemma train_body_events n i t v w :
  let acc := acc_grad_steps (hps (self w)) in
  acc <> 0 ->
  exists E,
    trace (ext (train_body dbg n i t v w).1) = trace (ext w) ++ EvBackward :: E /\
    count_backward E = 0 /\
    Forall (fun p => forall j,
              batch_indices p j E = if fires acc n i then [j] else [])
           opt_calls /\
    Forall (fun p => forall j,
              batch_indices p j E =
              if fires acc n i && Qgt0 (clip_norm (hps (self w))) then [j] else [])
           clip_calls.
Proof.
  intros acc Hacc. subst acc. unfold fires. exec.
  all: try (apply Z.eqb_eq in Heqb; contradiction).
  all: rewrite <- ?app_assoc; cbn.
  all: eexists; (split; [reflexivity|]).
  all: (split; [reflexivity|]).
  all: split; repeat constructor; intros j; cbn;
       rewrite ?is_train_log_train, ?is_train_log_val; reflexivity.
Qed.

(** ** Counting over traces *)

Lemma count_backward_nonneg E : 0 <= count_backward E.
Proof. induction E as [|e E IH]; cbn; [lia|]. destruct (is_backward e); lia. Qed.

Lemma count_backward_app E1 E2 :
  count_backward (E1 ++ E2) = count_backward E1 + count_backward E2.
Proof. induction E1 as [|e E1 IH]; cbn; [lia|]. rewrite IH. lia. Qed.

Lemma batch_indices_app p j E1 E2 :
  batch_indices p j (E1 ++ E2) =
  batch_indices p j E1 ++ batch_indices p (j + count_backward E1) E2.
Proof.
  revert j. induction E1 as [|e E1 IH]; intros j; cbn.
  - by rewrite Z.add_0_r.
  - destruct (is_backward e).
    + rewrite IH. do 2 f_equal. lia.
    + rewrite IH, Z.add_0_l. by destruct (p e).
Qed.

Lemma filter_seqZ_cons (P : Z -> bool) i m :
  0 <= m ->
  filter (fun k => P k) (seqZ i (1 + m)) =
  (if P i then [i] else []) ++ filter (fun k => P k) (seqZ (i + 1) m).
Proof.
  intros Hm. rewrite seqZ_cons by lia.
  replace (Z.pred (1 + m)) with m by lia. replace (Z.succ i) with (i + 1) by lia.
  destruct (P i) eqn:HP.
  - rewrite filter_cons_True; [done | by rewrite HP].
  - rewrite filter_cons_False; [done | rewrite HP; intros []].
Qed.

(** ** The loop of [train]: which batches trigger which calls *)

Lemma train_loop_events fuel n ts vl : forall i act w,
  let acc := acc_grad_steps (hps (self w)) in
  let r := train_loop dbg fuel n i ts vl act w in
  acc <> 0 ->
  exists E,
    trace (ext r.1) = trace (ext w) ++ E /\
    0 <= count_backward E <= len ts /\
    (r.2 = Ok tt -> count_backward E = len ts) /\
    (forall p, p ∈ opt_calls ->
       batch_indices p (i - 1) E =
       filter (fun k => fires acc n k) (seqZ i (count_backward E))) /\
    (forall p, p ∈ clip_calls ->
       batch_indices p (i - 1) E =
       if Qgt0 (clip_norm (hps (self w)))
       then filter (fun k => fires acc n k) (seqZ i (count_backward E))
       else []).
Proof.
  induction ts as [|t ts IH]; intros i act w acc r Hacc; subst r.
  { exists []. cbn. rewrite app_nil_r. unfold len. cbn.
    repeat split; try done. intros p _. by destruct (Qgt0 _). }
  cbn [train_loop].
  destruct (chain_next fuel vl act) as [[v act']|]; cycle 1.
  { exists []. cbn. rewrite app_nil_r. unfold len. cbn.
    repeat split; try done; try lia. intros p _. by destruct (Qgt0 _). }
  unfold mbind, M_bind, bind.
  destruct (train_body_events n i t v w Hacc) as (Eb & Htr & Hc & Ho & Hcl).
  pose proof (train_body_hps n i t v w) as Hh.
  rewrite Forall_forall in Ho. rewrite Forall_forall in Hcl.
  destruct (train_body dbg n i t v w) as [w1 o]. cbn in Htr, Hh.
  assert (Hone : forall p, p ∈ opt_calls ->
            batch_indices p (i - 1) (EvBackward :: Eb) =
            if fires acc n i then [i] else []).
  { intros p Hp. cbn. replace (i - 1 + 1) with i by lia. by apply Ho. }
  assert (Hcone : forall p, p ∈ clip_calls ->
            batch_indices p (i - 1) (EvBackward :: Eb) =
            if Qgt0 (clip_norm (hps (self w)))
            then (if fires acc n i then [i] else []) else []).
  { intros p Hp. cbn. replace (i - 1 + 1) with i by lia. rewrite (Hcl p Hp).
    fold acc. destruct (fires acc n i), (Qgt0 _); done. }
  assert (Hlen : len (t :: ts) = 1 + len ts) by (unfold len; cbn; lia).
  destruct o as [[]| |].
  - destruct (IH (i + 1) act' w1) as (Er & Htr' & Hm & Hok & Hor & Hclr).
    { by rewrite Hh. }
    rewrite Hh in Hor, Hclr. fold acc in Hor, Hclr.
    replace (i + 1 - 1) with i in Hor, Hclr by lia.
    exists ((EvBackward :: Eb) ++ Er).
    assert (Hcnt : count_backward ((EvBackward :: Eb) ++ Er)
                   = 1 + count_backward Er).
    { rewrite count_backward_app. cbn. lia. }
    rewrite Hcnt, Hlen.
    split. { rewrite Htr', Htr. by rewrite <- app_assoc. }
    split; [lia|]. split. { intros Hr. rewrite (Hok Hr). lia. }
    split.
    + intros p Hp. rewrite batch_indices_app, (Hone p Hp).
      replace (i - 1 + count_backward (EvBackward :: Eb)) with i
        by (cbn; lia).
      rewrite (Hor p Hp). by rewrite filter_seqZ_cons by lia.
    + intros p Hp. rewrite batch_indices_app, (Hcone p Hp).
      replace (i - 1 + count_backward (EvBackward :: Eb)) with i
        by (cbn; lia).
      rewrite (Hclr p Hp). destruct (Qgt0 _); [|done].
      by rewrite filter_seqZ_cons by lia.
  - exists (EvBackward :: Eb).
    assert (Hcnt : count_backward (EvBackward :: Eb) = 1 + 0) by (cbn; lia).
    pose proof (Zle_0_nat (length ts)).
    rewrite Hcnt, Hlen. unfold len. cbn [snd fst].
    repeat split; try done; try lia.
    + intros p Hp. rewrite (Hone p Hp), filter_seqZ_cons by lia.
      by rewrite seqZ_nil, app_nil_r by lia.
    + intros p Hp. rewrite (Hcone p Hp). destruct (Qgt0 _); [|done].
      rewrite filter_seqZ_cons by lia. by rewrite seqZ_nil, app_nil_r by lia.
  - exists (EvBackward :: Eb).
    assert (Hcnt : count_backward (EvBackward :: Eb) = 1 + 0) by (cbn; lia).
    pose proof (Zle_0_nat (length ts)).
    rewrite Hcnt, Hlen. unfold len. cbn [snd fst].
    repeat split; try done; try lia.
    + intros p Hp. rewrite (Hone p Hp), filter_seqZ_cons by lia.
      by rewrite seqZ_nil, app_nil_r by lia.
    + intros p Hp. rewrite (Hcone p Hp). destruct (Qgt0 _); [|done].
      rewrite filter_seqZ_cons by lia. by rewrite seqZ_nil, app_nil_r by lia.
Qed.

Lemma new_events_app w w' E :
  trace (ext w') = trace (ext w) ++ E -> new_events w w' = E.
Proof. unfold new_events. intros ->. apply drop_app_length. Qed.

Lemma fires_spec period n i :
  fires period n i <-> (i + 1) mod period = 0 \/ i + 1 = n.
Proof.
  unfold fires. rewrite orb_True, !Is_true_true, !Z.eqb_eq. tauto.
Qed.

(** C1: in [train], the calls of the optimizer step ([scaler.step],
    [scaler.update], [zero_grad] and the publishing of the training metrics)
    happen at exactly the batch indices [i] with [(i+1) % acc_grad_steps == 0]
    or [i+1 == len(train_dataloader)], among the [m] batches whose backward
    pass ran ([m] is the length of the loader when [train] returns); unscaling
    and clipping happen at the same indices when [clip_norm > 0] and nowhere
    otherwise.  A step that is not the final one comes after at least
    [acc_grad_steps] backward passes, none of the previous
    [acc_grad_steps - 1] batches stepped, and the final batch always steps. *)
Theorem train_optimizer_step_schedule fuel (tl vl : list Batch) w :
  acc_grad_steps (hps (self w)) <> 0 ->
  let acc := acc_grad_steps (hps (self w)) in
  let n := len tl in
  let r := train dbg fuel tl vl w in
  let E := new_events w r.1 in
  let m := count_backward E in
  let fired := filter (fun i => fires acc n i) (seqZ 0 m) in
  0 <= m <= n /\
  (r.2 = Ok tt -> m = n) /\
  (forall p, p ∈ opt_calls -> batch_indices p (-1) E = fired) /\
  (forall p, p ∈ clip_calls ->
     batch_indices p (-1) E =
     if Qgt0 (clip_norm (hps (self w))) then fired else []) /\
  (forall i, i ∈ fired <->
     0 <= i < m /\ ((i + 1) mod acc = 0 \/ i + 1 = n)) /\
  (forall i, i ∈ fired -> i + 1 <> n -> 0 < acc ->
     acc <= i + 1 /\ forall k, i - acc < k < i -> k ∉ fired) /\
  (0 < n -> m = n -> n - 1 ∈ fired).
Proof.
  intros Hacc acc n r E m fired.
  destruct (train_loop_events fuel n tl vl 0 None w Hacc)
    as (E' & Htr & Hm & Hok & Ho & Hc).
  assert (HE : E = E').
  { subst E r. apply new_events_app. revert Htr.
    unfold train, mbind, M_bind, bind. fold n.
    by destruct (train_loop dbg fuel n 0 tl vl None w) as [w1 [[]| |]]. }
  assert (Hr : r.2 = Ok tt ->
               (train_loop dbg fuel n 0 tl vl None w).2 = Ok tt).
  { subst r. unfold train, mbind, M_bind, bind. fold n.
    destruct (train_loop dbg fuel n 0 tl vl None w) as [w1 [[]| |]];
      cbn; congruence. }
  clearbody E. subst E'. fold m in Hm, Hok, Ho, Hc. fold acc in Ho, Hc.
  fold fired in Ho, Hc. fold n in Hm, Hok.
  assert (Hin : forall i, i ∈ fired <->
            0 <= i < m /\ ((i + 1) mod acc = 0 \/ i + 1 = n)).
  { intros i. subst fired. rewrite list_elem_of_filter, elem_of_seqZ, fires_spec.
    split; intros [? ?]; split; (lia || tauto). }
  split; [exact Hm|]. split; [auto|]. split; [exact Ho|]. split; [exact Hc|].
  split; [exact Hin|]. split.
  - intros i Hi Hne Hpos. apply Hin in Hi as [Hi [Hmod|?]]; [|done].
    apply Z.mod_divide in Hmod as [a Ha]; [|lia].
    clearbody fired m n acc.
    assert (1 <= a) by nia.
    split; [nia|].
    intros k Hk Hkin. apply Hin in Hkin as [Hk' [Hmodk|?]]; [|lia].
    apply Z.mod_divide in Hmodk as [b Hb]; [|lia].
    assert (a - b < 1) by nia. assert (0 < a - b) by nia. lia.
  - intros Hn Hmn. apply Hin. split; [lia|]. right. lia.
Qed.

(** ** The counters *)

Lemma train_body_counters n i t v w :
  let r := train_body dbg n i t v w in
  epochs_so_far (self r.1) = epochs_so_far (self w) /\
  iters_so_far (self r.1) =
    match r.2 with
    | Ok _ => iters_so_far (self w) + 1
    | _ => iters_so_far (self w)
    end.
Proof. exec; split; reflexivity. Qed.

Lemma train_loop_counters fuel n ts vl : forall i act w,
  let r := train_loop dbg fuel n i ts vl act w in
  epochs_so_far (self r.1) = epochs_so_far (self w) /\
  iters_so_far (self w) <= iters_so_far (self r.1) <= iters_so_far (self w) + len ts /\
  (r.2 = Ok tt -> iters_so_far (self r.1) = iters_so_far (self w) + len ts).
Proof.
  induction ts as [|t ts IH]; intros i act w r; subst r.
  { cbn. unfold len. cbn. lia. }
  assert (Hlen : len (t :: ts) = 1 + len ts) by (unfold len; cbn; lia).
  pose proof (Zle_0_nat (length ts)) as Hnn. fold (len ts) in Hnn.
  cbn [train_loop].
  destruct (chain_next fuel vl act) as [[v act']|]; cycle 1.
  { cbn. split; [done|]. split; [lia|done]. }
  unfold mbind, M_bind, bind.
  destruct (train_body_counters n i t v w) as [He Hi].
  destruct (train_body dbg n i t v w) as [w1 [[]| |]]; cbn in He, Hi.
  - destruct (IH (i + 1) act' w1) as (He' & Hi' & Hok).
    rewrite He', He. split; [done|]. split; [lia|].
    intros Hr. rewrite (Hok Hr). lia.
  - cbn. split; [done|]. split; [lia|done].
  - cbn. split; [done|]. split; [lia|done].
Qed.

Lemma test_body_counters b w : same_counters w (test_body b w).1.
Proof. unfold same_counters. exec; split; reflexivity. Qed.

Lemma test_loop_counters dl : forall w, same_counters w (test_loop dl w).1.
Proof.
  unfold same_counters.
  induction dl as [|b dl IH]; intros w; [done|].
  cbn [test_loop]. unfold mbind, M_bind, bind.
  destruct (test_body_counters b w) as [Hi He].
  destruct (test_body b w) as [w1 [[]| |]]; cbn in Hi, He; [|done..].
  destruct (IH w1) as [Hi' He']. by rewrite Hi', He'.
Qed.

Lemma test_counters dl w : same_counters w (test dl w).1.
Proof.
  unfold test, model_eval, model_train.
  unfold mbind, M_bind, bind, emit, update_self, modify. cbn.
  match goal with |- context [test_loop dl ?w1] =>
    destruct (test_loop_counters dl w1) as [Hi He];
    destruct (test_loop dl w1) as [w2 [[]| |]] end; done.
Qed.

Lemma save_counters path k w : same_counters w (save path k w).1.
Proof. done. Qed.

Lemma load_counters path k w : same_counters w (load path k w).1.
Proof.
  unfold same_counters, load, torch_load. exec; split; reflexivity.
Qed.

Lemma compute_loss_counters amb x y w :
  same_counters w (compute_loss amb x y w).1.
Proof. done. Qed.

Lemma send_to_dash_counters m mode w :
  same_counters w (send_to_dash m mode w).1.
Proof. unfold same_counters. exec; split; reflexivity. Qed.

Lemma train_counters fuel tl vl w :
  let r := train dbg fuel tl vl w in
  (r.2 = Ok tt ->
     iters_so_far (self r.1) = iters_so_far (self w) + len tl /\
     epochs_so_far (self r.1) = epochs_so_far (self w) + 1) /\
  (r.2 <> Ok tt -> epochs_so_far (self r.1) = epochs_so_far (self w)) /\
  iters_so_far (self w) <= iters_so_far (self r.1) <= iters_so_far (self w) + len tl /\
  epochs_so_far (self w) <= epochs_so_far (self r.1).
Proof.
  unfold train, mbind, M_bind, bind.
  destruct (train_loop_counters fuel (len tl) tl vl 0 None w) as (He & Hi & Hok).
  destruct (train_loop dbg fuel (len tl) 0 tl vl None w) as [w1 [[]| |]];
    cbn in *.
  - rewrite He, (Hok eq_refl). repeat split; try done; lia.
  - rewrite He. repeat split; try done; lia.
  - rewrite He. repeat split; try done; lia.
Qed.

Lemma run_call_counters c w :
  iters_so_far (self w) <= iters_so_far (self (run_call dbg c w).1) /\
  epochs_so_far (self w) <= epochs_so_far (self (run_call dbg c w).1).
Proof.
  destruct c as [fuel tl vl|dl|path k|path k|amb x y|m mode]; cbn [run_call].
  - destruct (train_counters fuel tl vl w) as (_ & _ & ? & ?). lia.
  - destruct (test_counters dl w) as [-> ->]. lia.
  - destruct (save_counters path k w) as [-> ->]. lia.
  - destruct (load_counters path k w) as [-> ->]. lia.
  - exec; lia.
  - destruct (send_to_dash_counters m mode w) as [-> ->]. lia.
Qed.

(** C3: a pass of the loop body of [train] that completes adds exactly one
    to [iters_so_far], whatever the index (so whether or not the batch
    stepped the optimizer or ran validation), and leaves [epochs_so_far]
    alone; a pass that raises adds nothing.  A call of [train] that returns
    has added the number of training batches to [iters_so_far] and one to
    [epochs_so_far]; one that does not return normally leaves [epochs_so_far]
    alone.  Over any sequence of calls on the object, also when exceptions
    are caught by the caller, neither counter ever decreases. *)
Theorem counters_count_batches_and_epochs :
  (forall n i t v w,
     let r := train_body dbg n i t v w in
     epochs_so_far (self r.1) = epochs_so_far (self w) /\
     iters_so_far (self r.1) =
       match r.2 with
       | Ok _ => iters_so_far (self w) + 1
       | _ => iters_so_far (self w)
       end) /\
  (forall fuel tl vl w,
     let r := train dbg fuel tl vl w in
     (r.2 = Ok tt ->
        iters_so_far (self r.1) = iters_so_far (self w) + len tl /\
        epochs_so_far (self r.1) = epochs_so_far (self w) + 1) /\
     (r.2 <> Ok tt -> epochs_so_far (self r.1) = epochs_so_far (self w)) /\
     iters_so_far (self r.1) <= iters_so_far (self w) + len tl) /\
  (forall cs w,
     iters_so_far (self w) <= iters_so_far (self (run_calls dbg cs w)) /\
     epochs_so_far (self w) <= epochs_so_far (self (run_calls dbg cs w))).
Proof.
  split; [exact train_body_counters|]. split.
  - intros fuel tl vl w r.
    destruct (train_counters fuel tl vl w) as (H1 & H2 & H3 & _).
    split; [exact H1|]. split; [exact H2|]. apply H3.
  - induction cs as [|c cs IH]; intros w; cbn [run_calls]; [lia|].
    pose proof (run_call_counters c w) as Hc.
    destruct (run_call dbg c w) as [w1 o]. cbn in Hc.
    specialize (IH w1). destruct o; lia.
Qed.

(** ** Checkpoints *)

Lemma string_length_app (a b : string) :
  String.length (a +:+ b) = (String.length a + String.length b)%nat.
Proof. induction a as [|c a IH]; simpl; [done|]. by rewrite IH. Qed.

Lemma string_app_inv_tail (s : string) : forall a b : string,
  a +:+ s = b +:+ s -> a = b.
Proof.
  induction a as [|c a IH]; intros [|c' b] Heq.
  - done.
  - apply (f_equal String.length) in Heq.
    rewrite !string_length_app in Heq. simpl in Heq. lia.
  - apply (f_equal String.length) in Heq.
    rewrite !string_length_app in Heq. simpl in Heq. lia.
  - change (String c (a +:+ s) = String c' (b +:+ s)) in Heq.
    injection Heq as -> Heq. f_equal. by apply IH.
Qed.

Lemma to_int_not_nil (k : Z) :
  Z.to_int k <> Decimal.Pos Decimal.Nil /\ Z.to_int k <> Decimal.Neg Decimal.Nil.
Proof.
  destruct k as [|p|p]; cbn; split; try discriminate;
    intros [= Hp]; by apply DecimalPos.Unsigned.to_uint_nonnil in Hp.
Qed.

Lemma str_int_inj : Inj (=) (=) str_int.
Proof.
  intros k k' Heq. unfold str_int in Heq.
  apply DecimalZ.to_int_inj.
  destruct (to_int_not_nil k) as [Hp Hn], (to_int_not_nil k') as [Hp' Hn'].
  pose proof (NilZero.isi _ Hp Hn) as H1.
  pose proof (NilZero.isi _ Hp' Hn') as H2.
  rewrite Heq in H1. congruence.
Qed.

Lemma model_path_inj path k path' k' :
  model_path path k = model_path path' k' -> path = path' /\ k = k'.
Proof.
  unfold model_path. intros Heq.
  apply app_inj_tail in Heq as [-> Heq]. split; [done|].
  apply (inj (String.append "model_")) in Heq.
  apply string_app_inv_tail in Heq. by apply str_int_inj.
Qed.

Lemma save_spec path k w :
  save path k w =
  ({| self := self w;
      ext := {| files := <[ model_path path k := state_dict (model (self w)) ]>
                           (files (ext w));
                trace := trace (ext w) ++ [EvTorchSave (model_path path k)] |} |},
   Ok tt).
Proof. reflexivity. Qed.

Lemma load_spec path k w :
  load path k w =
  match files (ext w) !! model_path path k with
  | Some sd =>
      ({| self := with_model (with_state_dict sd (model (self w))) (self w);
          ext := {| files := files (ext w);
                    trace := trace (ext w) ++ [EvTorchLoad (model_path path k)] |} |},
       Ok tt)
  | None =>
      ({| self := self w;
          ext := {| files := files (ext w);
                    trace := trace (ext w) ++ [EvTorchLoad (model_path path k)] |} |},
       Raise (FileNotFoundError (model_path path k)))
  end.
Proof.
  unfold load, torch_load. unfold_ops. cbn.
  by destruct (files (ext w) !! model_path path k).
Qed.

Lemma init_spec device h x :
  __init__ device h x =
  let sd := ClassifierModelTenChan (backbone h) (pretrained_w_imagenet h)
              (num_classes h) in
  ({| files := files x;
      trace := trace x
               ++ (if Qle_bool (clip_norm h) 0
                   then [EvLoggerInfo (MsgClipDisabled (clip_norm h))] else [])
               ++ [EvLoggerInfo (MsgModuleInfo "classifier_model" sd)] |},
   Ok {| device := device; hps := h; iters_so_far := 0; epochs_so_far := 0;
         model := {| state_dict := sd; training := true; grad := no_grads |};
         opt := Adam sd (lr h);
         ctx := (if cuda h then Autocast (fp16 h) else NullContext);
         scaler := GradScaler (fp16 h) |}).
Proof.
  unfold __init__, emit_ext. unfold_ops.
  destruct (Qle_bool (clip_norm h) 0); cbn; by rewrite <- ?app_assoc.
Qed.

(** C9: [save] leaves the object as it is, and [load] changes nothing of it
    but the model's state dict: both counters keep their values whatever the
    epoch argument, which only names the file.  [load] does not touch the
    files; it raises when the file is missing, and then changes nothing. *)
Theorem save_load_keep_counters path k w :
  self (save path k w).1 = self w /\
  let r := load path k w in
  same_counters w r.1 /\
  self r.1 =
    with_model (with_state_dict (state_dict (model (self r.1))) (model (self w)))
               (self w) /\
  files (ext r.1) = files (ext w) /\
  match files (ext w) !! model_path path k with
  | Some sd => r.2 = Ok tt /\ state_dict (model (self r.1)) = sd
  | None => r.2 = Raise (FileNotFoundError (model_path path k)) /\
            self r.1 = self w
  end.
Proof.
  split; [done|]. cbn zeta. rewrite load_spec.
  destruct (files (ext w) !! model_path path k); cbn.
  - done.
  - repeat split. by destruct w as [[? ? ? ? [] ? ? ?] ?].
Qed.

(** C2: after [save(p, k)] from any state of a [Classifier], [load(p, k)] on
    a freshly constructed one succeeds and gives it exactly the saved state
    dict.  The file is [model_<k>.tar] under [p], a name that determines [p]
    and [k].  The file holds the state dict and nothing else: after the load
    the optimizer and the scaler are those [__init__] built. *)
Theorem save_then_load_roundtrip path k w device h :
  let w1 := (save path k w).1 in
  let built := __init__ device h (ext w1) in
  exists fresh,
    built.2 = Ok fresh /\
    let r := load path k {| self := fresh; ext := built.1 |} in
    r.2 = Ok tt /\
    state_dict (model (self r.1)) = state_dict (model (self w)) /\
    opt (self r.1) = opt fresh /\
    scaler (self r.1) = scaler fresh /\
    opt fresh = Adam (ClassifierModelTenChan (backbone h)
                        (pretrained_w_imagenet h) (num_classes h)) (lr h) /\
    scaler fresh = GradScaler (fp16 h) /\
    files (ext w1) =
      <[ path ++ ["model_" +:+ str_int k +:+ ".tar"]
         := state_dict (model (self w)) ]> (files (ext w)) /\
    (forall path' k', model_path path' k' = model_path path k ->
                      path' = path /\ k' = k).
Proof.
  cbn zeta. rewrite save_spec, init_spec. cbn. eexists. split; [reflexivity|].
  rewrite load_spec. cbn. rewrite lookup_insert_eq. cbn.
  do 7 (split; [done|]).
  intros path' k' Heq. by apply model_path_inj.
Qed.

(** ** Relations every pass of a loop keeps *)

Lemma appends_refl P w : appends P w w.
Proof. exists []. by rewrite app_nil_r. Qed.

Lemma appends_same_ext P w w' : ext w' = ext w -> appends P w w'.
Proof. intros Hx. exists []. by rewrite Hx, app_nil_r. Qed.

Lemma appends_trans P w1 w2 w3 :
  appends P w1 w2 -> appends P w2 w3 -> appends P w1 w3.
Proof.
  intros (E1 & H1 & HP1) (E2 & H2 & HP2). exists (E1 ++ E2).
  split; [by rewrite H2, H1, app_assoc | by apply Forall_app].
Qed.

Lemma appends_new_events P w w' :
  appends P w w' -> Forall P (new_events w w').
Proof. intros (E & HE & HP). by rewrite (new_events_app _ _ _ HE). Qed.

Lemma chain_next_elem fuel (vl : list Batch) : forall act v act',
  chain_next fuel vl act = Some (v, act') ->
  (forall rest, act = Some rest -> rest ⊆ vl) ->
  v ∈ vl /\ (forall rest, act' = Some rest -> rest ⊆ vl).
Proof.
  induction fuel as [|fuel IH]; intros act v act' Hn Hact; [done|].
  cbn in Hn. destruct act as [[|b rest]|].
  - apply IH in Hn; [done|]. intros ? [=].
  - injection Hn as <- <-. specialize (Hact _ eq_refl). split.
    + apply Hact. left.
    + intros ? [= <-]. intros x Hx. apply Hact. by right.
  - apply IH in Hn; [done|]. by intros ? [= <-].
Qed.

Section loop_rules.

Variable R : World -> World -> Prop.
Hypothesis R_refl : forall w, R w w.
Hypothesis R_trans : forall w1 w2 w3, R w1 w2 -> R w2 w3 -> R w1 w3.

Lemma train_loop_rel fuel n ts vl :
  (forall i t v w, v ∈ vl -> R w (train_body dbg n i t v w).1) ->
  forall i act w,
    (forall rest, act = Some rest -> rest ⊆ vl) ->
    R w (train_loop dbg fuel n i ts vl act w).1.
Proof.
  intros Hbody. induction ts as [|t ts IH]; intros i act w Hact; [done|].
  cbn [train_loop].
  destruct (chain_next fuel vl act) as [[v act']|] eqn:Hn; [|done].
  apply chain_next_elem in Hn as [Hv Hact']; [|done].
  unfold mbind, M_bind, bind. specialize (Hbody i t v w Hv).
  destruct (train_body dbg n i t v w) as [w1 [[]| |]]; [|done..].
  eapply R_trans; [exact Hbody|]. by apply IH.
Qed.

Lemma train_rel fuel tl vl w :
  (forall n i t v w, v ∈ vl -> R w (train_body dbg n i t v w).1) ->
  (forall k w, R w {| self := with_epochs_so_far k (self w); ext := ext w |}) ->
  R w (train dbg fuel tl vl w).1.
Proof.
  intros Hbody Hep. unfold train, mbind, M_bind, bind.
  pose proof (train_loop_rel fuel (len tl) tl vl (Hbody (len tl)) 0 None w) as Hl.
  destruct (train_loop dbg fuel (len tl) 0 tl vl None w) as [w1 [[]| |]];
    cbn in Hl |- *; try (apply Hl; by intros ? [=]).
  eapply R_trans; [apply Hl; by intros ? [=]|]. apply Hep.
Qed.

Lemma test_loop_rel dl :
  (forall b w, b ∈ dl -> R w (test_body b w).1) ->
  forall it w, it ⊆ dl -> R w (test_loop it w).1.
Proof.
  intros Hbody. induction it as [|b it IH]; intros w Hsub; [done|].
  cbn [test_loop]. unfold mbind, M_bind, bind.
  assert (Hb : b ∈ dl) by (apply Hsub; left).
  specialize (Hbody b w Hb).
  destruct (test_body b w) as [w1 [[]| |]]; [|done..].
  eapply R_trans; [exact Hbody|]. apply IH.
  intros x Hx. apply Hsub. by right.
Qed.

End loop_rules.

(** ** Thresholding at zero *)

Lemma predicted_class_finite q :
  predicted_class (FFinite q) = if Qlt_le_dec 0 q then 1 else 0.
Proof.
  unfold predicted_class, gt_zero, Qgt0.
  destruct (Qlt_le_dec 0 q) as [Hlt|Hle].
  - destruct (Qle_bool q 0) eqn:Hb; [|done].
    apply Qle_bool_iff in Hb. exfalso. by apply (Qlt_not_le _ _ Hlt).
  - apply Qle_bool_iff in Hle. by rewrite Hle.
Qed.

Lemma threshold_fmap (logits : list float) :
  long <$> (gt_zero <$> logits) = predicted_class <$> logits.
Proof.
  rewrite <- list_fmap_compose. apply list_fmap_ext.
  intros _ x _. unfold predicted_class. cbn. by destruct (gt_zero x).
Qed.

Lemma train_body_metrics n i t v w :
  appends (metrics_ok [v]) w (train_body dbg n i t v w).1.
Proof.
  unfold appends. exec.
  all: rewrite <- ?app_assoc; cbn.
  all: eexists; (split; [reflexivity|]).
  all: repeat constructor.
  all: destruct v as [x y]; eexists x, _; rewrite threshold_fmap;
       split; [left|reflexivity].
Qed.

Lemma test_body_metrics b w :
  training (model (self w)) = false ->
  training (model (self (test_body b w).1)) = false /\
  appends (metrics_ok [b]) w (test_body b w).1.
Proof.
  intros Hmode. unfold appends. exec.
  all: split; [done|].
  all: rewrite <- ?app_assoc; cbn.
  all: eexists; (split; [reflexivity|]).
  all: repeat constructor.
  all: destruct b as [x y]; eexists x, _; rewrite Hmode, threshold_fmap;
       split; [left|reflexivity].
Qed.

Lemma test_body_trace b w :
  training (model (self w)) = false ->
  exists d s,
    new_events w (test_body b w).1 =
    [EvMetrics b.2
       (predicted_class <$>
          (model_call (state_dict (model (self w))) false NoGrad b.1).1);
     EvWandbLog d s].
Proof.
  intros Hmode. exec.
  all: do 2 eexists; apply new_events_app; cbn.
  all: rewrite <- ?app_assoc, Hmode, threshold_fmap; reflexivity.
Qed.

Lemma train_eval_block_trace n i v w :
  eval_every (hps (self w)) <> 0 ->
  fires (eval_every (hps (self w))) n i = true ->
  exists d s tail,
    new_events w (train_eval_block n i v w).1 =
    [EvModelEval;
     EvMetrics v.2
       (predicted_class <$>
          (model_call (state_dict (model (self w))) false NoGrad v.1).1);
     EvWandbLog d s] ++ tail /\
    (tail = [] \/ tail = [EvModelTrain]).
Proof.
  intros Hev Hf. unfold fires in Hf. exec; try absurd_branch.
  all: do 3 eexists; split; [apply new_events_app; cbn;
         rewrite <- ?app_assoc, threshold_fmap; cbn; reflexivity|].
  all: first [by left | by right].
Qed.

Lemma metrics_ok_mono (l1 l2 : list Batch) e :
  l1 ⊆ l2 -> metrics_ok l1 e -> metrics_ok l2 e.
Proof.
  intros Hsub. destruct e; try done. cbn.
  intros (x & p & Hin & ->). exists x, p. split; [by apply Hsub|done].
Qed.

Lemma appends_mono (P Q : event -> Prop) w w' :
  (forall e, P e -> Q e) -> appends P w w' -> appends Q w w'.
Proof.
  intros HPQ (E & HE & HP). exists E. split; [done|].
  by eapply Forall_impl.
Qed.

(** C4: the predicted class of a logit is 1 when the logit is greater than
    zero and 0 otherwise (0 on NaN; -1.0 and 0.0 give 0, 0.5 gives 1).  The
    validation block of [train], when it is due, and each pass of the body
    of [test] make one call of the metrics helper, on the labels of the
    batch and the logits of an eval-mode forward pass thresholded by this
    rule; and every call of the metrics helper made by [train] (on a
    validation batch) and by [test] (on a batch of its loader) is of this
    kind. *)
Theorem predictions_thresholded_at_zero :
  (forall q, predicted_class (FFinite q) = if Qlt_le_dec 0 q then 1 else 0) /\
  predicted_class FNaN = 0 /\
  predicted_class (FInf false) = 1 /\
  predicted_class (FInf true) = 0 /\
  predicted_class (FFinite (-1)) = 0 /\
  predicted_class (FFinite 0) = 0 /\
  predicted_class (FFinite (1 # 2)) = 1 /\
  (forall logits : list float,
     long <$> (gt_zero <$> logits) = predicted_class <$> logits) /\
  (forall n i v w,
     eval_every (hps (self w)) <> 0 ->
     fires (eval_every (hps (self w))) n i = true ->
     exists d s tail,
       new_events w (train_eval_block n i v w).1 =
       [EvModelEval;
        EvMetrics v.2
          (predicted_class <$>
             (model_call (state_dict (model (self w))) false NoGrad v.1).1);
        EvWandbLog d s] ++ tail /\
       (tail = [] \/ tail = [EvModelTrain])) /\
  (forall b w,
     training (model (self w)) = false ->
     exists d s,
       new_events w (test_body b w).1 =
       [EvMetrics b.2
          (predicted_class <$>
             (model_call (state_dict (model (self w))) false NoGrad b.1).1);
        EvWandbLog d s]) /\
  (forall fuel tl vl w,
     Forall (metrics_ok vl) (new_events w (train dbg fuel tl vl w).1)) /\
  (forall dl w,
     Forall (metrics_ok dl) (new_events w (test dl w).1)).
Proof.
  split; [exact predicted_class_finite|]. do 6 (split; [reflexivity|]).
  split; [|split; [exact train_eval_block_trace|split;
                   [exact test_body_trace|split]]].
  - exact threshold_fmap.
  - intros fuel tl vl w. apply appends_new_events.
    apply (train_rel (appends (metrics_ok vl))).
    + apply appends_refl.
    + apply appends_trans.
    + intros n i t v w' Hv.
      eapply appends_mono; [|apply train_body_metrics].
      intros e. apply metrics_ok_mono. intros x Hx.
      apply list_elem_of_singleton in Hx. by subst.
    + intros k w'. by apply appends_same_ext.
  - intros dl w. apply appends_new_events.
    unfold test, model_eval, model_train.
    unfold mbind, M_bind, bind, emit, update_self, modify. cbn.
    set (w1 := {| self := _; ext := _ |}).
    pose proof (test_loop_rel
      (fun a b => training (model (self a)) = false ->
                  training (model (self b)) = false /\
                  appends (metrics_ok dl) a b)) as Hl.
    specialize (Hl ltac:(intros a ?; split; [done | apply appends_refl])).
    specialize (Hl ltac:(intros a b c Hab Hbc Ha;
      destruct (Hab Ha) as [Hb ?]; destruct (Hbc Hb) as [? ?];
      split; [done | by eapply appends_trans])).
    specialize (Hl dl).
    specialize (Hl ltac:(intros b w' Hb Hm;
      destruct (test_body_metrics b w' Hm) as [? Happ]; split; [done|];
      eapply appends_mono; [|exact Happ]; intros e; apply metrics_ok_mono;
      intros x Hx; apply list_elem_of_singleton in Hx; by subst)).
    specialize (Hl dl w1 ltac:(done) eq_refl) as [_ (E & HE & HP)].
    destruct (test_loop dl w1) as [w2 [[]| |]]; cbn in HE |- *.
    + exists ([EvModelEval] ++ E ++ [EvModelTrain]). split.
      * rewrite HE. subst w1. cbn. by rewrite <- !app_assoc.
      * apply Forall_app. split; [by repeat constructor|].
        apply Forall_app. split; [done | by repeat constructor].
    + exists ([EvModelEval] ++ E). split.
      * rewrite HE. subst w1. cbn. by rewrite <- !app_assoc.
      * apply Forall_app. split; [by repeat constructor | done].
    + exists ([EvModelEval] ++ E). split.
      * rewrite HE. subst w1. cbn. by rewrite <- !app_assoc.
      * apply Forall_app. split; [by repeat constructor | done].
Qed.

(** ** Clipping disabled *)

Lemma Qgt0_false q : (q <= 0)%Q -> Qgt0 q = false.
Proof. intros Hq. unfold Qgt0. apply Qle_bool_iff in Hq. by rewrite Hq. Qed.

Lemma train_body_no_clip n i t v w :
  Qgt0 (clip_norm (hps (self w))) = false ->
  appends no_clip w (train_body dbg n i t v w).1.
Proof.
  intros Hclip. unfold appends. exec; try congruence.
  all: rewrite <- ?app_assoc; cbn.
  all: eexists; (split; [reflexivity|]).
  all: by repeat constructor.
Qed.

Lemma train_body_ok n i t v w :
  DEBUG dbg = false ->
  acc_grad_steps (hps (self w)) <> 0 ->
  eval_every (hps (self w)) <> 0 ->
  (forall d s, wandb_log d s = true) ->
  (train_body dbg n i t v w).2 = Ok tt.
Proof.
  intros Hdbg Hacc Hev Hdash. exec; first [reflexivity | absurd_branch].
Qed.

(** C6: with [clip_norm <= 0] the constructor returns the object, having
    logged that clipping is disabled and the summary of the model and
    nothing else; from then on no pass of the loop body of [train], and no
    call of [train], unscales or clips the gradients; and a pass of the body
    completes (with the debug flag off, non-zero periods and the dashboard
    up). *)
Theorem clipping_disabled_is_not_an_error device h :
  (clip_norm h <= 0)%Q ->
  (forall x, exists c,
     (__init__ device h x).2 = Ok c /\
     hps c = h /\
     (__init__ device h x).1 =
       {| files := files x;
          trace := trace x ++
            [EvLoggerInfo (MsgClipDisabled (clip_norm h));
             EvLoggerInfo (MsgModuleInfo "classifier_model"
                             (state_dict (model c)))] |}) /\
  (forall n i t v w,
     hps (self w) = h ->
     let r := train_body dbg n i t v w in
     Forall no_clip (new_events w r.1) /\
     (DEBUG dbg = false -> acc_grad_steps h <> 0 -> eval_every h <> 0 ->
      (forall d s, wandb_log d s = true) -> r.2 = Ok tt)) /\
  (forall fuel tl vl w,
     hps (self w) = h ->
     Forall no_clip (new_events w (train dbg fuel tl vl w).1)).
Proof.
  intros Hclip. split; [|split].
  - intros x. rewrite init_spec. cbn zeta.
    apply Qle_bool_iff in Hclip. rewrite Hclip.
    eexists. split; [reflexivity|]. split; reflexivity.
  - intros n i t v w <- r. split.
    + apply appends_new_events, train_body_no_clip. by apply Qgt0_false.
    + intros. by apply train_body_ok.
  - intros fuel tl vl w <-. apply appends_new_events.
    pose proof (train_rel
      (fun a b => hps (self b) = hps (self a) /\
                  (Qgt0 (clip_norm (hps (self a))) = false ->
                   appends no_clip a b))) as Hl.
    specialize (Hl ltac:(intros a; split; [done|intros _; apply appends_refl])).
    specialize (Hl ltac:(intros a b c [Hab Hab'] [Hbc Hbc']; split;
      [congruence|]; intros Ha; eapply appends_trans; [by apply Hab'|];
      apply Hbc'; by rewrite Hab)).
    apply (Hl fuel tl vl w).
    + intros n i t v w' _. split; [apply train_body_hps|].
      apply train_body_no_clip.
    + intros k w'. split; [done|]. intros _. by apply appends_same_ext.
    + by apply Qgt0_false.
Qed.

(** ** The mode of the model *)

Lemma test_body_mode b w :
  training (model (self (test_body b w).1)) = training (model (self w)).
Proof. exec; reflexivity. Qed.

Lemma test_loop_mode dl w :
  training (model (self (test_loop dl w).1)) = training (model (self w)).
Proof.
  apply (test_loop_rel
    (fun a b => training (model (self b)) = training (model (self a))))
    with (dl := dl); try done.
  - intros w1 w2 w3 H12 H23. by rewrite H23.
  - intros b w' _. apply test_body_mode.
Qed.

Lemma test_mode dl w :
  let r := test dl w in
  (r.2 = Ok tt -> training (model (self r.1)) = true) /\
  (r.2 <> Ok tt -> training (model (self r.1)) = false).
Proof.
  unfold test, model_eval, model_train.
  unfold mbind, M_bind, bind, emit, update_self, modify. cbn.
  match goal with |- context [test_loop dl ?w1] =>
    pose proof (test_loop_mode dl w1) as Hm;
    destruct (test_loop dl w1) as [w2 [[]| |]] end; cbn in Hm |- *; done.
Qed.

Lemma train_eval_block_mode n i v w :
  let r := train_eval_block n i v w in
  (r.2 = Ok tt ->
     training (model (self r.1)) =
     if fires (eval_every (hps (self w))) n i then true
     else training (model (self w))) /\
  (r.2 = Raise WandbError -> training (model (self r.1)) = false) /\
  (r.2 = Raise ZeroDivisionError ->
     training (model (self r.1)) = training (model (self w))).
Proof. unfold fires. exec; repeat split; done. Qed.

Lemma train_body_mode n i t v w :
  let r := train_body dbg n i t v w in
  r.2 = Ok tt ->
  training (model (self r.1)) =
  if fires (eval_every (hps (self w))) n i then true
  else training (model (self w)).
Proof. unfold fires. exec; done. Qed.

Lemma train_loop_mode fuel n ts vl : forall i act w,
  let r := train_loop dbg fuel n i ts vl act w in
  r.2 = Ok tt ->
  (ts <> [] -> i + len ts = n -> training (model (self r.1)) = true) /\
  (training (model (self w)) = true -> training (model (self r.1)) = true).
Proof.
  induction ts as [|t ts IH]; intros i act w r Hr; subst r; [done|].
  revert Hr. cbn [train_loop].
  destruct (chain_next fuel vl act) as [[v act']|]; [|done].
  unfold mbind, M_bind, bind.
  pose proof (train_body_mode n i t v w) as Hb.
  pose proof (train_body_hps n i t v w) as Hh.
  destruct (train_body dbg n i t v w) as [w1 [[]| |]]; [|done..].
  cbn in Hb, Hh. specialize (Hb eq_refl). intros Hr.
  destruct (IH (i + 1) act' w1 Hr) as [IH1 IH2].
  assert (Hlen : len (t :: ts) = 1 + len ts) by (unfold len; cbn; lia).
  split.
  - intros _ Hn. rewrite Hlen in Hn. destruct ts as [|t' ts'].
    + apply IH2. rewrite Hb. unfold fires.
      replace (i + 1 =? n) with true; [by rewrite orb_true_r|].
      symmetry. apply Z.eqb_eq. unfold len in Hn. cbn in Hn. lia.
    + apply IH1; [done | lia].
  - intros Hw. apply IH2. rewrite Hb, Hw. by destruct (fires _ _ _).
Qed.

Lemma train_mode fuel tl vl w :
  let r := train dbg fuel tl vl w in
  r.2 = Ok tt ->
  tl <> [] \/ training (model (self w)) = true ->
  training (model (self r.1)) = true.
Proof.
  unfold train, mbind, M_bind, bind.
  pose proof (train_loop_mode fuel (len tl) tl vl 0 None w) as Hl.
  destruct (train_loop dbg fuel (len tl) 0 tl vl None w) as [w1 [[]| |]];
    [|done..].
  cbn in Hl |- *. intros _ Hor. destruct (Hl eq_refl) as [H1 H2].
  destruct Hor as [Hne|Hw]; [apply H1; [done|lia] | by apply H2].
Qed.

Lemma other_blocks_keep_mode w :
  (forall n i m,
     training (model (self (train_opt_block n i m w).1)) = training (model (self w))) /\
  training (model (self (train_debug_block dbg w).1)) = training (model (self w)) /\
  (forall l, training (model (self (backward l w).1)) = training (model (self w))) /\
  (forall amb x y,
     training (model (self (compute_loss amb x y w).1)) = training (model (self w))) /\
  (forall m mode,
     training (model (self (send_to_dash m mode w).1)) = training (model (self w))) /\
  (forall path k,
     training (model (self (save path k w).1)) = training (model (self w))) /\
  (forall path k,
     training (model (self (load path k w).1)) = training (model (self w))).
Proof.
  repeat split; intros; try done.
  - exec; reflexivity.
  - exec; reflexivity.
  - exec; reflexivity.
  - rewrite load_spec. by destruct (files (ext w) !! model_path path k).
Qed.

(** C7, as the code has it: the mode is one of two ([training] true or
    false).  [test] that returns leaves the model in training mode, and so
    does the validation block of [train] when it ran and returned (when it is
    not due it leaves the mode alone); a [train] that returns on a non-empty
    loader leaves the model in training mode.  The other operations leave
    the mode alone.  When the dashboard call inside the validation block or
    inside [test] raises, the model stays in eval mode. *)
Theorem mode_restored_when_evaluation_returns :
  (forall dl w,
     let r := test dl w in
     (r.2 = Ok tt -> training (model (self r.1)) = true) /\
     (r.2 <> Ok tt -> training (model (self r.1)) = false)) /\
  (forall n i v w,
     let r := train_eval_block n i v w in
     (r.2 = Ok tt ->
        training (model (self r.1)) =
        if fires (eval_every (hps (self w))) n i then true
        else training (model (self w))) /\
     (r.2 = Raise WandbError -> training (model (self r.1)) = false)) /\
  (forall fuel tl vl w,
     let r := train dbg fuel tl vl w in
     r.2 = Ok tt ->
     tl <> [] \/ training (model (self w)) = true ->
     training (model (self r.1)) = true) /\
  (forall w,
     (forall n i m,
        training (model (self (train_opt_block n i m w).1))
        = training (model (self w))) /\
     training (model (self (train_debug_block dbg w).1))
     = training (model (self w)) /\
     (forall l, training (model (self (backward l w).1))
                = training (model (self w))) /\
     (forall amb x y,
        training (model (self (compute_loss amb x y w).1))
        = training (model (self w))) /\
     (forall m mode,
        training (model (self (send_to_dash m mode w).1))
        = training (model (self w))) /\
     (forall path k,
        training (model (self (save path k w).1)) = training (model (self w))) /\
     (forall path k,
        training (model (self (load path k w).1)) = training (model (self w)))).
Proof.
  split; [exact test_mode|]. split.
  - intros n i v w r. destruct (train_eval_block_mode n i v w) as (H1 & H2 & _).
    by split.
  - split; [exact train_mode | exact other_blocks_keep_mode].
Qed.

(** ** The debug branch *)

Lemma DEBUG_of_int s v : int_of_str s = Some v -> DEBUG (Some s) = (2 <=? v).
Proof.
  intros Hs. unfold DEBUG, debug_lvl, clip. rewrite Hs.
  destruct (2 <=? v) eqn:Hv.
  - apply Z.leb_le in Hv. apply Z.leb_le. lia.
  - apply Z.leb_gt in Hv. apply Z.leb_gt. lia.
Qed.

Lemma DEBUG_invalid s : int_of_str s = None -> DEBUG (Some s) = false.
Proof. intros Hs. unfold DEBUG, debug_lvl. by rewrite Hs. Qed.

Lemma train_body_debug n i t v w :
  DEBUG dbg = true ->
  let r := train_body dbg n i t v w in
  r.2 <> Ok tt /\ same_counters w r.1 /\
  (acc_grad_steps (hps (self w)) <> 0 ->
   eval_every (hps (self w)) <> 0 ->
   (forall d s, wandb_log d s = true) ->
   r.2 = Raise (AttributeError "Classifier" "scheduler")).
Proof.
  intros Hdbg. unfold same_counters. exec.
  all: try absurd_branch.
  all: repeat split; try done.
  all: intros; absurd_branch.
Qed.

Lemma train_body_no_attribute_error n i t v w o a :
  DEBUG dbg = false ->
  (train_body dbg n i t v w).2 <> Raise (AttributeError o a).
Proof. intros Hdbg. exec; first [done | absurd_branch]. Qed.

Lemma train_loop_outcome (Q : outcome unit -> Prop) fuel n ts vl :
  Q (Ok tt) -> Q Hang ->
  (forall i t v w, (train_body dbg n i t v w).2 <> Ok tt ->
                   Q (train_body dbg n i t v w).2) ->
  forall i act w, Q (train_loop dbg fuel n i ts vl act w).2.
Proof.
  intros Hok Hhang Hbody. induction ts as [|t ts IH]; intros i act w; [done|].
  cbn [train_loop]. destruct (chain_next fuel vl act) as [[v act']|]; [|done].
  unfold mbind, M_bind, bind. specialize (Hbody i t v w).
  destruct (train_body dbg n i t v w) as [w1 [[]| |]]; cbn in Hbody |- *.
  - apply IH.
  - by apply Hbody.
  - by apply Hbody.
Qed.

Lemma chain_next_first fuel (b : Batch) rest :
  (2 <= fuel)%nat ->
  chain_next fuel (b :: rest) None = Some (b, Some rest).
Proof. intros Hf. destruct fuel as [|[|fuel]]; [lia..|done]. Qed.

(** C8: [DEBUG] is off when DEBUG_LVL is unset or is not an int, and is
    [2 <= v] when it is the int [v].  With [DEBUG] on, a call of [train] on a
    non-empty training loader never returns normally and completes no batch
    (both counters keep their values); with a non-empty validation loader,
    non-zero periods and the dashboard up, what it raises is the
    [AttributeError] of the missing [scheduler] attribute.  With [DEBUG] off
    the branch does nothing and [train] never raises an [AttributeError]. *)
Theorem debug_branch_reads_missing_scheduler :
  DEBUG None = false /\
  (forall s, int_of_str s = None -> DEBUG (Some s) = false) /\
  (forall s v, int_of_str s = Some v -> DEBUG (Some s) = (2 <=? v)) /\
  (DEBUG dbg = true ->
   forall fuel tl vl w,
     tl <> [] ->
     let r := train dbg fuel tl vl w in
     r.2 <> Ok tt /\ same_counters w r.1 /\
     (vl <> [] -> (2 <= fuel)%nat ->
      acc_grad_steps (hps (self w)) <> 0 ->
      eval_every (hps (self w)) <> 0 ->
      (forall d s, wandb_log d s = true) ->
      r.2 = Raise (AttributeError "Classifier" "scheduler"))) /\
  (DEBUG dbg = false ->
   (forall w, train_debug_block dbg w = (w, Ok tt)) /\
   (forall fuel tl vl w o a,
      (train dbg fuel tl vl w).2 <> Raise (AttributeError o a))).
Proof.
  split; [reflexivity|]. split; [exact DEBUG_invalid|].
  split; [exact DEBUG_of_int|]. split.
  - intros Hdbg fuel tl vl w Htl. destruct tl as [|t tl]; [done|].
    unfold train. cbn [train_loop]. unfold mbind, M_bind, bind.
    destruct (chain_next fuel vl None) as [[v act']|] eqn:Hn.
    + destruct (train_body_debug (len (t :: tl)) 0 t v w Hdbg)
        as (Hnok & Hc & Hraise).
      destruct (train_body dbg (len (t :: tl)) 0 t v w) as [w1 [[]| |]];
        cbn in Hnok, Hc, Hraise |- *; [done|..].
      * split; [done|]. split; [done|]. intros. by apply Hraise.
      * split; [done|]. split; [done|]. intros. by apply Hraise.
    + cbn. split; [done|]. split; [done|].
      intros Hvl Hf. destruct vl as [|b rest]; [done|].
      by rewrite chain_next_first in Hn.
  - intros Hdbg. split.
    + intros w. unfold train_debug_block. by rewrite Hdbg.
    + intros fuel tl vl w o a. unfold train, mbind, M_bind, bind.
      pose proof (train_loop_outcome (fun r => r <> Raise (AttributeError o a))
        fuel (len tl) tl vl ltac:(done) ltac:(done)) as Hl.
      specialize (Hl ltac:(intros; by apply train_body_no_attribute_error)).
      specialize (Hl 0 None w).
      by destruct (train_loop dbg fuel (len tl) 0 tl vl None w) as [w1 [[]| |]].
Qed.

(** ** Pairing the two loaders *)

Lemma chain_next_refill fuel (b : Batch) rest act :
  (3 <= fuel)%nat -> pending act = [] ->
  chain_next fuel (b :: rest) act = Some (b, Some rest).
Proof.
  intros Hf Hact. destruct fuel as [|[|[|fuel]]]; [lia..|].
  destruct act as [[|]|]; done.
Qed.

Lemma chain_next_yield fuel (vl : list Batch) b rest :
  (1 <= fuel)%nat ->
  chain_next fuel vl (Some (b :: rest)) = Some (b, Some rest).
Proof. intros Hf. destruct fuel; [lia|done]. Qed.

Lemma train_loop_stream fuel n (vl : list Batch) :
  (3 <= fuel)%nat -> vl <> [] ->
  forall ts i act w m,
    (length ts <= m)%nat ->
    train_loop dbg fuel n i ts vl act w =
    run_pairs dbg n i (zip ts (pending act ++ concat (replicate m vl))) w.
Proof.
  intros Hf Hvl. induction ts as [|t ts IH]; intros i act w m Hm; [done|].
  cbn [train_loop length] in *.
  destruct (pending act) as [|b rest] eqn:Hp.
  - destruct vl as [|b rest]; [done|]. destruct m as [|m]; [lia|].
    rewrite chain_next_refill by done.
    cbn [replicate concat app zip zip_with run_pairs].
    unfold mbind, M_bind, bind.
    destruct (train_body dbg n i t b w) as [w1 [[]| |]]; [|done..].
    rewrite (IH (i + 1) (Some rest) w1 m) by lia. done.
  - destruct act as [act|]; [|done]. cbn in Hp. subst act.
    rewrite chain_next_yield by lia.
    cbn [app zip zip_with run_pairs].
    unfold mbind, M_bind, bind.
    destruct (train_body dbg n i t b w) as [w1 [[]| |]]; [|done..].
    rewrite (IH (i + 1) (Some rest) w1 m) by lia. done.
Qed.

Lemma lookup_concat_replicate (vl : list Batch) m j :
  (j < m * length vl)%nat ->
  concat (replicate m vl) !! j = vl !! (j mod length vl)%nat.
Proof.
  revert j. induction m as [|m IH]; intros j Hj; [lia|].
  cbn [replicate concat].
  destruct (decide (j < length vl)%nat) as [Hlt|Hge].
  - rewrite lookup_app_l by done. by rewrite Nat.mod_small.
  - rewrite lookup_app_r by lia. rewrite IH by lia. f_equal.
    replace j with ((j - length vl) + 1 * length vl)%nat at 2 by lia.
    by rewrite Nat.Div0.mod_add.
Qed.

Lemma length_concat_replicate (vl : list Batch) m :
  length (concat (replicate m vl)) = (m * length vl)%nat.
Proof.
  induction m as [|m IH]; [done|]. cbn [replicate concat].
  rewrite length_app, IH. lia.
Qed.

Lemma train_body_returns n i t v w : (train_body dbg n i t v w).2 <> Hang.
Proof. exec; done. Qed.

Lemma run_pairs_returns n pairs : forall i w,
  (run_pairs dbg n i pairs w).2 <> Hang.
Proof.
  induction pairs as [|[t v] pairs IH]; intros i w; [done|].
  cbn [run_pairs]. unfold mbind, M_bind, bind.
  pose proof (train_body_returns n i t v w) as Hb.
  destruct (train_body dbg n i t v w) as [w1 [[]| |]]; try done.
Qed.

Lemma train_as_run_pairs fuel (tl vl : list Batch) w :
  vl <> [] -> (3 <= fuel)%nat ->
  train dbg fuel tl vl w =
    (run_pairs dbg (len tl) 0 (cyclic_pairs tl vl) ;;
     update_self (fun c => with_epochs_so_far (epochs_so_far c + 1) c)) w.
Proof.
  intros Hvl Hf. unfold train, mbind, M_bind, bind.
  by rewrite (train_loop_stream fuel (len tl) vl Hf Hvl tl 0 None w (length tl)).
Qed.

Lemma train_returns fuel (tl vl : list Batch) w :
  vl <> [] -> (3 <= fuel)%nat -> (train dbg fuel tl vl w).2 <> Hang.
Proof.
  intros Hvl Hf. rewrite train_as_run_pairs by done.
  unfold mbind, M_bind, bind.
  pose proof (run_pairs_returns (len tl) (cyclic_pairs tl vl) 0 w) as Hr.
  by destruct (run_pairs dbg (len tl) 0 (cyclic_pairs tl vl) w)
    as [w1 [[]| |]].
Qed.

(** C5, as the code has it: with a validation loader that yields at least
    one batch, the loop of [train] is the loop body run on the training
    batches in order, the
    [j]-th one paired with the validation batch at position
    [j mod len(val_dataloader)]: the validation loader is restarted each
    time it is exhausted, there are exactly as many pairs as training
    batches, asking for a pair never fails or hangs, and a [train] that
    returns has processed as many pairs as there are training batches. *)
Theorem validation_loader_is_cycled fuel (tl vl : list Batch) w :
  vl <> [] -> (3 <= fuel)%nat ->
  train dbg fuel tl vl w =
    (run_pairs dbg (len tl) 0 (cyclic_pairs tl vl) ;;
     update_self (fun c => with_epochs_so_far (epochs_so_far c + 1) c)) w /\
  length (cyclic_pairs tl vl) = length tl /\
  (forall j t, tl !! j = Some t ->
     exists v, vl !! (j mod length vl)%nat = Some v /\
               cyclic_pairs tl vl !! j = Some (t, v)) /\
  (train dbg fuel tl vl w).2 <> Hang /\
  ((train dbg fuel tl vl w).2 = Ok tt ->
     iters_so_far (self (train dbg fuel tl vl w).1)
     = iters_so_far (self w) + len tl).
Proof.
  intros Hvl Hf.
  assert (Hlen : (0 < length vl)%nat) by (destruct vl; [done | cbn; lia]).
  split; [by apply train_as_run_pairs|]. split; [|split; [|split]].
  - unfold cyclic_pairs. rewrite length_zip, length_concat_replicate. nia.
  - intros j t Ht. pose proof (lookup_lt_Some _ _ _ Ht) as Hj.
    destruct (lookup_lt_is_Some_2 vl (j mod length vl)%nat) as [v Hv].
    { apply Nat.mod_upper_bound. lia. }
    exists v. split; [done|]. unfold cyclic_pairs.
    apply lookup_zip_Some. split; [done|].
    rewrite lookup_concat_replicate by nia. done.
  - by apply train_returns.
  - intros Hok. by destruct (train_counters fuel tl vl w) as [[? _] _].
Qed.

(** ** Termination *)

Lemma chain_next_empty fuel act :
  pending act = [] -> chain_next fuel ([] : list Batch) act = None.
Proof.
  revert act. induction fuel as [|fuel IH]; intros act Hact; [done|].
  cbn. destruct act as [[|]|]; try done; by apply IH.
Qed.

Lemma train_empty_loader fuel (vl : list Batch) w :
  (train dbg fuel [] vl w).2 = Ok tt.
Proof. reflexivity. Qed.

(** C10: on a non-empty training loader, [train] returns (normally or by
    raising) when the validation loader yields at least one batch, and the
    result does not depend on how long the chained iterator is allowed to
    search; when the validation loader is empty the chained stream yields
    nothing and never stops searching, so [train] does not return and no
    pair is processed. *)
Theorem train_returns_iff_validation_nonempty (tl vl : list Batch) w :
  tl <> [] ->
  (vl <> [] ->
   forall fuel, (3 <= fuel)%nat ->
     (train dbg fuel tl vl w).2 <> Hang /\
     train dbg fuel tl vl w = train dbg 3 tl vl w) /\
  (vl = [] -> forall fuel, train dbg fuel tl vl w = (w, Hang)).
Proof.
  intros Htl. split.
  - intros Hvl fuel Hf. split; [by apply train_returns|].
    rewrite (train_as_run_pairs fuel) by done.
    by rewrite (train_as_run_pairs 3) by (done || lia).
  - intros -> fuel. destruct tl as [|t tl]; [done|].
    unfold train. cbn [train_loop]. by rewrite chain_next_empty.
Qed.

(** * Further properties of the code *)

(** ** The record sent to the dashboard *)

Lemma string_app_cons c (s t : string) :
  String c s +:+ t = String c (s +:+ t).
Proof. reflexivity. Qed.

Lemma string_app_nil (t : string) : "" +:+ t = t.
Proof. reflexivity. Qed.

Lemma prefixed_not_epoch (mode k : string) :
  mode +:+ "/" +:+ k <> "epoch"%string.
Proof.
  intros H.
  do 5 (destruct mode as [|? mode];
        [rewrite string_app_nil, string_app_cons in H; discriminate H|];
        rewrite string_app_cons in H; injection H as -> H).
  destruct mode; [rewrite string_app_nil, string_app_cons in H|
                  rewrite string_app_cons in H]; discriminate H.
Qed.

Lemma dash_record_epoch mode (m : gmap string MetricVal) ep :
  dash_record mode m ep !! "epoch"%string = Some (DInt ep).
Proof. unfold dash_record. by rewrite lookup_insert_eq. Qed.

Lemma dash_record_metric mode (m : gmap string MetricVal) ep k :
  dash_record mode m ep !! (mode +:+ "/" +:+ k) = item <$> m !! k.
Proof.
  unfold dash_record. rewrite lookup_insert_ne.
  - by rewrite (lookup_kmap (fun k => mode +:+ "/" +:+ k)), lookup_fmap.
  - intros H. symmetry in H. by apply prefixed_not_epoch in H.
Qed.

Lemma dash_record_other mode (m : gmap string MetricVal) ep key :
  key <> "epoch"%string ->
  (forall k, m !! k <> None -> key <> mode +:+ "/" +:+ k) ->
  dash_record mode m ep !! key = None.
Proof.
  intros Hne Hk. unfold dash_record. rewrite lookup_insert_ne by done.
  apply lookup_kmap_None; [apply _|]. intros k ->.
  rewrite lookup_fmap. destruct (m !! k) eqn:Hm; [|done].
  exfalso. apply (Hk k); [by rewrite Hm | done].
Qed.

(** X4: [send_to_dash] makes one call of [wandb.log], at step [iters_so_far],
    with a record that holds [epochs_so_far] under [epoch], every metric [k]
    under [mode/k] as a plain number, and nothing else; the epoch entry never
    replaces a metric.  It returns when the dashboard accepts the record and
    raises otherwise, and changes nothing of the object. *)
Theorem send_to_dash_record (metrics : gmap string MetricVal) mode w :
  let d := dash_record mode metrics (epochs_so_far (self w)) in
  let r := send_to_dash metrics mode w in
  new_events w r.1 = [EvWandbLog d (iters_so_far (self w))] /\
  self r.1 = self w /\ files (ext r.1) = files (ext w) /\
  r.2 = (if wandb_log d (iters_so_far (self w)) then Ok tt
         else Raise WandbError) /\
  d !! "epoch"%string = Some (DInt (epochs_so_far (self w))) /\
  (forall k, d !! (mode +:+ "/" +:+ k) = item <$> metrics !! k) /\
  (forall key, key <> "epoch"%string ->
     (forall k, metrics !! k <> None -> key <> mode +:+ "/" +:+ k) ->
     d !! key = None).
Proof.
  cbn zeta. split; [|split; [|split; [|split]]].
  - apply new_events_app. unfold dash_record. exec; reflexivity.
  - exec; reflexivity.
  - exec; reflexivity.
  - unfold dash_record. exec; reflexivity.
  - split; [apply dash_record_epoch|]. split.
    + intros k. apply dash_record_metric.
    + intros key. apply dash_record_other.
Qed.

(** ** The optimizer step *)

(** X2: when an optimizer step is due, the block unscales and clips the
    gradients first if clipping is enabled (with [clip_norm] as the bound),
    then steps the optimizer through the scaler, updates the scaler, zeroes
    the gradients and publishes the training record at the current
    iteration, in this order; it returns when the dashboard accepts the
    record.  When no step is due the block does nothing. *)
Theorem optimizer_step_order n i (m : gmap string MetricVal) w :
  acc_grad_steps (hps (self w)) <> 0 ->
  let clip := clip_norm (hps (self w)) in
  let d := dash_record "train" m (epochs_so_far (self w)) in
  let r := train_opt_block n i m w in
  if fires (acc_grad_steps (hps (self w))) n i then
    new_events w r.1 =
      (if Qgt0 clip then [EvUnscale; EvClipGradNorm clip] else [])
      ++ [EvScalerStep; EvScalerUpdate; EvZeroGrad;
          EvWandbLog d (iters_so_far (self w))] /\
    grad (model (self r.1)) = no_grads /\
    r.2 = (if wandb_log d (iters_so_far (self w)) then Ok tt
           else Raise WandbError)
  else r = (w, Ok tt).
Proof.
  intros Hacc. cbn zeta. unfold fires, dash_record. exec; try absurd_branch.
  all: try (split; [apply new_events_app; cbn; by rewrite <- ?app_assoc|]).
  all: try (split; reflexivity).
Qed.

(** X3: the loss a training record carries is the loss divided by
    [acc_grad_steps]: the division of line 94 is in place and the metrics
    dict holds the same tensor.  The record is published at the iteration
    count the batch started with, for the current epoch, and has no other
    entry. *)
Theorem train_record_has_divided_loss n i t v w :
  acc_grad_steps (hps (self w)) <> 0 ->
  let divided :=
    loss_idiv
      (BCEWithLogitsLoss
         (model_call (state_dict (model (self w))) (training (model (self w)))
            (WithCtx (ctx (self w))) t.1).1 t.2)
      (acc_grad_steps (hps (self w))) in
  Forall (fun e =>
            match e with
            | EvWandbLog d s =>
                is_train_log e = true ->
                s = iters_so_far (self w) /\
                d !! "train/loss"%string = Some (DFloat (loss_item divided)) /\
                d !! "epoch"%string = Some (DInt (epochs_so_far (self w))) /\
                (forall key, key <> "train/loss"%string ->
                             key <> "epoch"%string -> d !! key = None)
            | _ => True
            end)
         (new_events w (train_body dbg n i t v w).1).
Proof.
  intros Hacc. cbn zeta.
  assert (Htrain : forall (l l' : MetricVal) ep,
    let d := dash_record "train" (<[ "loss"%string := l ]> {[ "loss"%string := l' ]}) ep in
    d !! "train/loss"%string = Some (item l) /\
    d !! "epoch"%string = Some (DInt ep) /\
    (forall key, key <> "train/loss"%string ->
                 key <> "epoch"%string -> d !! key = None)).
  { intros l l' ep d. subst d. split; [|split].
    - etrans; [apply (dash_record_metric "train" _ _ "loss")|].
      by rewrite lookup_insert_eq.
    - apply dash_record_epoch.
    - intros key Hk He. apply dash_record_other; [done|].
      intros k Hin ->. destruct (decide (k = "loss"%string)) as [->|Hne].
      + by apply Hk.
      + by rewrite lookup_insert_ne, lookup_singleton_ne in Hin. }
  unfold dash_record in Htrain. cbn zeta in Htrain.
  exec; try absurd_branch.
  all: match goal with
       | |- Forall _ (new_events ?w0 ?w1) =>
           erewrite (new_events_app w0 w1);
           [|cbn; rewrite <- ?app_assoc; reflexivity]
       end.
  all: repeat first
         [ apply Forall_nil_2
         | apply Forall_cons_2;
           [ first [ exact I
                   | intros His; rewrite is_train_log_val in His;
                     discriminate His
                   | intros _; split; [reflexivity | apply Htrain] ] | ] ].
Qed.

(** ** The validation schedule *)

Arguments is_val_log : simpl never.

Lemma is_val_log_val (scores : gmap string MetricVal) l ep st :
  is_val_log
    (EvWandbLog (<[ "epoch"%string := DInt ep ]>
                   (kmap (fun k : string => "val" +:+ "/" +:+ k)
                      (item <$> (scores ∪ {[ "loss"%string := l ]})))) st)
  = true.
Proof.
  unfold is_val_log. rewrite lookup_insert_ne by done.
  change "val/loss"%string with ((fun k => "val" +:+ "/" +:+ k) "loss"%string).
  rewrite (lookup_kmap _), lookup_fmap.
  destruct (lookup_union_is_Some scores {[ "loss"%string := l ]} "loss"%string)
    as [_ [x Hx]].
  { right. rewrite lookup_singleton_eq. by eexists. }
  by rewrite Hx.
Qed.

Lemma is_val_log_train (m : gmap string MetricVal) ep st :
  is_val_log
    (EvWandbLog (<[ "epoch"%string := DInt ep ]>
                   (kmap (fun k : string => "train" +:+ "/" +:+ k)
                      (item <$> m))) st) = false.
Proof.
  unfold is_val_log. rewrite lookup_insert_ne by done.
  assert (kmap (fun k : string => "train" +:+ "/" +:+ k) (item <$> m)
            !! "val/loss"%string = None) as ->; [|done].
  apply lookup_kmap_None; [apply _|]. intros k Hk. discriminate Hk.
Qed.

Lemma train_body_eval_events n i t v w :
  acc_grad_steps (hps (self w)) <> 0 ->
  eval_every (hps (self w)) <> 0 ->
  (forall d s, wandb_log d s = true) ->
  exists E,
    trace (ext (train_body dbg n i t v w).1) = trace (ext w) ++ EvBackward :: E /\
    count_backward E = 0 /\
    Forall (fun p => forall j,
              batch_indices p j E =
              if fires (eval_every (hps (self w))) n i then [j] else [])
           eval_calls.
Proof.
  intros Hacc Hev Hdash. unfold fires. exec; try absurd_branch.
  all: rewrite <- ?app_assoc; cbn.
  all: eexists; (split; [reflexivity|]).
  all: (split; [reflexivity|]).
  all: repeat constructor; intros j; cbn;
       rewrite ?is_val_log_train, ?is_val_log_val; reflexivity.
Qed.

(** The loop of [train] for one kind of call that each pass makes, after its
    backward pass, exactly when [sel] holds of the index. *)
Lemma train_loop_indices (Inv : World -> Prop) (sel : Z -> bool)
    (p : event -> bool) fuel n ts vl :
  (forall i t v w, Inv w ->
     Inv (train_body dbg n i t v w).1 /\
     exists E,
       trace (ext (train_body dbg n i t v w).1)
       = trace (ext w) ++ EvBackward :: E /\
       count_backward E = 0 /\
       forall j, batch_indices p j E = if sel i then [j] else []) ->
  forall i act w,
    Inv w ->
    let r := train_loop dbg fuel n i ts vl act w in
    exists E,
      trace (ext r.1) = trace (ext w) ++ E /\
      0 <= count_backward E <= len ts /\
      (r.2 = Ok tt -> count_backward E = len ts) /\
      batch_indices p (i - 1) E =
      filter (fun k => sel k) (seqZ i (count_backward E)).
Proof.
  intros Hbody. induction ts as [|t ts IH]; intros i act w HI r; subst r.
  { exists []. cbn. rewrite app_nil_r. unfold len. cbn. by repeat split. }
  cbn [train_loop].
  destruct (chain_next fuel vl act) as [[v act']|]; cycle 1.
  { exists []. cbn. rewrite app_nil_r. unfold len. cbn.
    repeat split; try done; lia. }
  unfold mbind, M_bind, bind.
  destruct (Hbody i t v w HI) as (HI1 & Eb & Htr & Hc & Hp).
  destruct (train_body dbg n i t v w) as [w1 o]. cbn in Htr, HI1.
  assert (Hone : batch_indices p (i - 1) (EvBackward :: Eb) =
                 if sel i then [i] else []).
  { cbn. replace (i - 1 + 1) with i by lia. apply Hp. }
  assert (Hcnt1 : count_backward (EvBackward :: Eb) = 1) by (cbn; lia).
  assert (Hlen : len (t :: ts) = 1 + len ts) by (unfold len; cbn; lia).
  pose proof (Zle_0_nat (length ts)) as Hnn. fold (len ts) in Hnn.
  assert (Hstop : exists E,
    trace (ext w1) = trace (ext w) ++ E /\
    0 <= count_backward E <= len (t :: ts) /\
    batch_indices p (i - 1) E =
    filter (fun k => sel k) (seqZ i (count_backward E)) /\
    count_backward E = 1).
  { exists (EvBackward :: Eb). rewrite Hcnt1, Hlen.
    split; [done|]. split; [lia|]. split; [|done].
    rewrite Hone. change 1 with (1 + 0) at 1.
    rewrite filter_seqZ_cons by lia. by rewrite seqZ_nil, app_nil_r by lia. }
  destruct o as [[]| |].
  - destruct (IH (i + 1) act' w1 HI1) as (Er & Htr' & Hm & Hok & Hr).
    replace (i + 1 - 1) with i in Hr by lia.
    exists ((EvBackward :: Eb) ++ Er).
    rewrite count_backward_app, Hcnt1, Hlen.
    split. { rewrite Htr', Htr. by rewrite <- app_assoc. }
    split; [lia|]. split. { intros Hr'. rewrite (Hok Hr'). lia. }
    rewrite batch_indices_app, Hone, Hcnt1.
    replace (i - 1 + 1) with i by lia.
    rewrite Hr. by rewrite filter_seqZ_cons by lia.
  - destruct Hstop as (E & H1 & H2 & H3 & _). exists E. cbn.
    split; [done|]. split; [done|]. by split.
  - destruct Hstop as (E & H1 & H2 & H3 & _). exists E. cbn.
    split; [done|]. split; [done|]. by split.
Qed.

(** X1: with non-zero periods and the dashboard up, the validation block of
    [train] (switch to eval mode, metrics call, validation record, switch
    back) runs at exactly the batch indices [i] with
    [(i+1) % eval_every == 0] or [i+1 == len(train_dataloader)], among the
    batches whose backward pass ran. *)
Theorem train_validation_schedule fuel (tl vl : list Batch) w :
  acc_grad_steps (hps (self w)) <> 0 ->
  eval_every (hps (self w)) <> 0 ->
  (forall d s, wandb_log d s = true) ->
  let r := train dbg fuel tl vl w in
  let E := new_events w r.1 in
  let m := count_backward E in
  0 <= m <= len tl /\
  (r.2 = Ok tt -> m = len tl) /\
  forall p, p ∈ eval_calls ->
    batch_indices p (-1) E =
    filter (fun i => fires (eval_every (hps (self w))) (len tl) i) (seqZ 0 m).
Proof.
  intros Hacc Hev Hdash r E m.
  assert (Hall : forall p, p ∈ eval_calls ->
    exists E',
      trace (ext (train_loop dbg fuel (len tl) 0 tl vl None w).1)
      = trace (ext w) ++ E' /\
      0 <= count_backward E' <= len tl /\
      ((train_loop dbg fuel (len tl) 0 tl vl None w).2 = Ok tt ->
       count_backward E' = len tl) /\
      batch_indices p (0 - 1) E' =
      filter (fun k => fires (eval_every (hps (self w))) (len tl) k)
             (seqZ 0 (count_backward E'))).
  { intros p Hp.
    apply (train_loop_indices (fun w' => hps (self w') = hps (self w))); [|done].
    intros i t v w' Hh. split; [by rewrite train_body_hps|].
    destruct (train_body_eval_events (len tl) i t v w') as (Eb & H1 & H2 & H3);
      rewrite ?Hh; try done.
    exists Eb. split; [done|]. split; [done|].
    rewrite Forall_forall in H3. rewrite Hh in H3. by apply H3. }
  assert (HE : forall E',
    trace (ext (train_loop dbg fuel (len tl) 0 tl vl None w).1)
    = trace (ext w) ++ E' -> E = E').
  { intros E' Htr. subst E r. apply new_events_app. revert Htr.
    unfold train, mbind, M_bind, bind.
    by destruct (train_loop dbg fuel (len tl) 0 tl vl None w) as [w1 [[]| |]]. }
  assert (Hr : r.2 = Ok tt ->
               (train_loop dbg fuel (len tl) 0 tl vl None w).2 = Ok tt).
  { subst r. unfold train, mbind, M_bind, bind.
    destruct (train_loop dbg fuel (len tl) 0 tl vl None w) as [w1 [[]| |]];
      cbn; congruence. }
  destruct (Hall is_model_eval ltac:(left)) as (E0 & Htr0 & Hm0 & Hok0 & _).
  pose proof (HE _ Htr0) as HE0. subst m. rewrite HE0.
  split; [done|]. split; [auto|].
  intros p Hp. destruct (Hall p Hp) as (E' & Htr' & _ & _ & Hp').
  rewrite <- HE0, (HE _ Htr'). exact Hp'.
Qed.

(** ** Zero periods *)

Lemma train_first_batch_raises fuel t (tl : list Batch) b rest w e :
  (2 <= fuel)%nat ->
  (train_body dbg (len (t :: tl)) 0 t b w).2 = Raise e ->
  train dbg fuel (t :: tl) (b :: rest) w
  = train_body dbg (len (t :: tl)) 0 t b w.
Proof.
  intros Hf Hr. unfold train. cbn [train_loop].
  rewrite chain_next_first by done. unfold mbind, M_bind, bind.
  destruct (train_body dbg (len (t :: tl)) 0 t b w) as [w1 o].
  cbn in Hr. by subst o.
Qed.

Lemma train_body_zero_acc n i t v w :
  acc_grad_steps (hps (self w)) = 0 ->
  let r := train_body dbg n i t v w in
  r.2 = Raise ZeroDivisionError /\
  new_events w r.1 = [EvBackward] /\
  same_counters w r.1 /\
  opt (self r.1) = opt (self w) /\
  scaler (self r.1) = scaler (self w) /\
  training (model (self r.1)) = training (model (self w)).
Proof.
  intros Hacc. unfold same_counters. exec.
  all: try (rewrite Hacc in *; discriminate).
  all: split; [done|]; split; [by apply new_events_app|]; done.
Qed.

(** X8: with [acc_grad_steps = 0], [train] on non-empty loaders raises
    [ZeroDivisionError] in its first batch, at the modulo of line 98: the
    backward pass has run and nothing else, so no optimizer step is made,
    nothing is published, and the counters, the optimizer, the scaler and
    the mode are as before. *)
Theorem train_zero_acc_grad_steps fuel (tl vl : list Batch) w :
  acc_grad_steps (hps (self w)) = 0 ->
  tl <> [] -> vl <> [] -> (2 <= fuel)%nat ->
  let r := train dbg fuel tl vl w in
  r.2 = Raise ZeroDivisionError /\
  new_events w r.1 = [EvBackward] /\
  same_counters w r.1 /\
  opt (self r.1) = opt (self w) /\
  scaler (self r.1) = scaler (self w) /\
  training (model (self r.1)) = training (model (self w)).
Proof.
  intros Hacc Htl Hvl Hf. destruct tl as [|t tl]; [done|].
  destruct vl as [|b rest]; [done|]. cbn zeta.
  pose proof (train_body_zero_acc (len (t :: tl)) 0 t b w Hacc) as Hb.
  cbn zeta in Hb.
  rewrite (train_first_batch_raises fuel t tl b rest w ZeroDivisionError)
    by (done || apply Hb).
  exact Hb.
Qed.

Lemma train_body_zero_eval_every n i t v w :
  acc_grad_steps (hps (self w)) <> 0 ->
  eval_every (hps (self w)) = 0 ->
  (forall d s, wandb_log d s = true) ->
  let r := train_body dbg n i t v w in
  r.2 = Raise ZeroDivisionError /\
  same_counters w r.1 /\
  training (model (self r.1)) = training (model (self w)) /\
  count_backward (new_events w r.1) = 1 /\
  Forall (fun e => Forall (fun p => p e = false) eval_calls)
         (new_events w r.1) /\
  grad (model (self r.1)) =
    (if fires (acc_grad_steps (hps (self w))) n i then no_grads
     else grad (model (self r.1))).
Proof.
  intros Hacc Hev Hdash. unfold same_counters, fires. exec; try absurd_branch.
  all: try (rewrite Hev in *; discriminate).
  all: split; [done|]; split; [done|]; split; [done|].
  all: match goal with
       | |- context [new_events ?w0 ?w1] =>
           erewrite (new_events_app w0 w1);
           [|cbn; rewrite <- ?app_assoc; reflexivity]
       end.
  all: split; [reflexivity|]; split; [|reflexivity].
  all: repeat constructor; cbn; by rewrite ?is_val_log_train.
Qed.

(** X9: with [eval_every = 0] (and a non-zero [acc_grad_steps], the dashboard
    up), [train] on non-empty loaders raises [ZeroDivisionError] in its first
    batch, at the modulo of line 111: the backward pass and the optimizer
    step block of that batch have run, the validation block has not, and the
    counters and the mode are as before. *)
Theorem train_zero_eval_every fuel (tl vl : list Batch) w :
  acc_grad_steps (hps (self w)) <> 0 ->
  eval_every (hps (self w)) = 0 ->
  (forall d s, wandb_log d s = true) ->
  tl <> [] -> vl <> [] -> (2 <= fuel)%nat ->
  let r := train dbg fuel tl vl w in
  r.2 = Raise ZeroDivisionError /\
  same_counters w r.1 /\
  training (model (self r.1)) = training (model (self w)) /\
  count_backward (new_events w r.1) = 1 /\
  Forall (fun e => Forall (fun p => p e = false) eval_calls)
         (new_events w r.1).
Proof.
  intros Hacc Hev Hdash Htl Hvl Hf. destruct tl as [|t tl]; [done|].
  destruct vl as [|b rest]; [done|]. cbn zeta.
  pose proof (train_body_zero_eval_every (len (t :: tl)) 0 t b w Hacc Hev Hdash)
    as Hb. cbn zeta in Hb.
  rewrite (train_first_batch_raises fuel t tl b rest w ZeroDivisionError)
    by (done || apply Hb).
  destruct Hb as (H1 & H2 & H3 & H4 & H5 & _). done.
Qed.

(** ** Gradients and the number of optimizer steps *)

Lemma train_body_last_clears_grads n i t v w :
  i + 1 = n ->
  (train_body dbg n i t v w).2 = Ok tt ->
  grad (model (self (train_body dbg n i t v w).1)) = no_grads.
Proof.
  intros Hn. apply Z.eqb_eq in Hn. exec; try done.
  all: rewrite Hn, orb_true_r in *; discriminate.
Qed.

Lemma train_loop_last (Q : World -> Prop) fuel n ts vl :
  (forall i t v w, i + 1 = n -> (train_body dbg n i t v w).2 = Ok tt ->
                   Q (train_body dbg n i t v w).1) ->
  forall i act w,
    ts <> [] -> i + len ts = n ->
    (train_loop dbg fuel n i ts vl act w).2 = Ok tt ->
    Q (train_loop dbg fuel n i ts vl act w).1.
Proof.
  intros Hbody. induction ts as [|t ts IH]; intros i act w Hne Hn; [done|].
  assert (Hlen : len (t :: ts) = 1 + len ts) by (unfold len; cbn; lia).
  cbn [train_loop].
  destruct (chain_next fuel vl act) as [[v act']|]; [|done].
  unfold mbind, M_bind, bind. specialize (Hbody i t v w).
  destruct (train_body dbg n i t v w) as [w1 [[]| |]]; [|done..].
  destruct ts as [|t' ts'].
  - intros _. cbn. apply Hbody; [|done]. unfold len in Hn. cbn in Hn. lia.
  - apply IH; [done | lia].
Qed.

(** X10: when [train] returns on a non-empty training loader no gradient is left
    accumulated: the final batch always steps the optimizer and zeroes the
    gradients, and the validation block that follows does not touch them. *)
Theorem train_leaves_no_gradient fuel (tl vl : list Batch) w :
  tl <> [] ->
  (train dbg fuel tl vl w).2 = Ok tt ->
  grad (model (self (train dbg fuel tl vl w).1)) = no_grads.
Proof.
  intros Htl. unfold train, mbind, M_bind, bind.
  pose proof (train_loop_last (fun w' => grad (model (self w')) = no_grads)
    fuel (len tl) tl vl (train_body_last_clears_grads (len tl)) 0 None w Htl
    ltac:(lia)) as Hl.
  destruct (train_loop dbg fuel (len tl) 0 tl vl None w) as [w1 [[]| |]];
    [|done..].
  intros _. cbn in Hl |- *. by apply Hl.
Qed.

Lemma div_succ_step a m :
  0 < a -> 0 <= m ->
  (m + 1) / a = m / a + (if (m + 1) mod a =? 0 then 1 else 0).
Proof.
  intros Ha Hm.
  pose proof (Z.div_mod m a ltac:(lia)) as Hdm.
  pose proof (Z.mod_pos_bound m a Ha) as Hb.
  destruct (decide (m mod a + 1 = a)) as [Heq|Hne].
  - assert (Hmul : m + 1 = (m / a + 1) * a) by nia.
    rewrite Hmul, Z.div_mul, Z.mod_mul by lia. cbn. lia.
  - assert (Hq : (m + 1) / a = m / a).
    { symmetry. apply (Z.div_unique_pos (m + 1) a (m / a) (m mod a + 1)); lia. }
    assert (Hr : (m + 1) mod a = m mod a + 1).
    { symmetry. apply (Z.mod_unique_pos (m + 1) a (m / a) (m mod a + 1)); lia. }
    rewrite Hq, Hr. destruct (m mod a + 1 =? 0) eqn:Hz; [|lia].
    apply Z.eqb_eq in Hz. lia.
Qed.

Lemma count_multiples a (k : nat) :
  0 < a ->
  Z.of_nat (length (filter (fun i => Is_true ((i + 1) mod a =? 0))
                      (seqZ 0 (Z.of_nat k))))
  = Z.of_nat k / a.
Proof.
  intros Ha. induction k as [|k IH].
  - cbn. by rewrite Z.div_0_l by lia.
  - rewrite Nat2Z.inj_succ, <- Z.add_1_r.
    rewrite seqZ_app by lia. rewrite filter_app, length_app, Nat2Z.inj_add, IH.
    rewrite div_succ_step by lia. f_equal.
    rewrite Z.add_0_l, seqZ_cons, seqZ_nil by lia.
    destruct ((Z.of_nat k + 1) mod a =? 0) eqn:Hz.
    + rewrite filter_cons_True by (by rewrite Hz). done.
    + rewrite filter_cons_False by (rewrite Hz; intros []). done.
Qed.

Lemma filter_ext_elem {A} (P1 P2 : A -> Prop)
    `{!forall x, Decision (P1 x)} `{!forall x, Decision (P2 x)} (l : list A) :
  (forall x, x ∈ l -> P1 x <-> P2 x) -> filter P1 l = filter P2 l.
Proof.
  induction l as [|x l IH]; intros Hl; [done|].
  assert (Hx : P1 x <-> P2 x) by (apply Hl; left).
  assert (Hrest : filter P1 l = filter P2 l).
  { apply IH. intros y Hy. apply Hl. by right. }
  rewrite !filter_cons.
  destruct (decide (P1 x)), (decide (P2 x)); try tauto; by rewrite Hrest.
Qed.

Lemma count_fires a (k : nat) :
  0 < a ->
  Z.of_nat (length (filter (fun i => Is_true (fires a (Z.of_nat k) i))
                      (seqZ 0 (Z.of_nat k))))
  = (Z.of_nat k + a - 1) / a.
Proof.
  intros Ha. destruct k as [|k].
  - cbn. by rewrite Z.div_small by lia.
  - rewrite Nat2Z.inj_succ, <- Z.add_1_r.
    rewrite seqZ_app by lia. rewrite filter_app, length_app, Nat2Z.inj_add.
    assert (Hfirst :
      filter (fun i => Is_true (fires a (Z.of_nat k + 1) i)) (seqZ 0 (Z.of_nat k))
      = filter (fun i => Is_true ((i + 1) mod a =? 0)) (seqZ 0 (Z.of_nat k))).
    { apply filter_ext_elem. intros i Hi.
      apply elem_of_seqZ in Hi. unfold fires.
      replace (i + 1 =? Z.of_nat k + 1) with false; [by rewrite orb_false_r|].
      symmetry. apply Z.eqb_neq. lia. }
    rewrite Hfirst, count_multiples by done.
    rewrite Z.add_0_l, seqZ_cons, seqZ_nil by lia.
    rewrite filter_cons_True.
    + rewrite filter_nil. cbn [length].
      replace (Z.of_nat k + 1 + a - 1) with (Z.of_nat k + 1 * a) by lia.
      rewrite Z.div_add by lia. lia.
    + unfold fires. rewrite Z.eqb_refl, orb_true_r. done.
Qed.

(** X11: with a positive [acc_grad_steps], a [train] that returns over [n]
    training batches has stepped the optimizer [ceil(n / acc_grad_steps)]
    times. *)
Theorem train_number_of_optimizer_steps fuel (tl vl : list Batch) w :
  0 < acc_grad_steps (hps (self w)) ->
  (train dbg fuel tl vl w).2 = Ok tt ->
  Z.of_nat (length (filter (fun e => Is_true (is_step e))
                      (new_events w (train dbg fuel tl vl w).1)))
  = (len tl + acc_grad_steps (hps (self w)) - 1) / acc_grad_steps (hps (self w)).
Proof.
  intros Hacc Hok.
  destruct (train_loop_events fuel (len tl) tl vl 0 None w ltac:(lia))
    as (E & Htr & Hm & Hcnt & Ho & _).
  assert (HE : new_events w (train dbg fuel tl vl w).1 = E).
  { apply new_events_app. revert Htr. unfold train, mbind, M_bind, bind.
    by destruct (train_loop dbg fuel (len tl) 0 tl vl None w) as [w1 [[]| |]]. }
  assert (Hl : (train_loop dbg fuel (len tl) 0 tl vl None w).2 = Ok tt).
  { revert Hok. unfold train, mbind, M_bind, bind.
    by destruct (train_loop dbg fuel (len tl) 0 tl vl None w) as [w1 [[]| |]]. }
  rewrite HE. specialize (Hcnt Hl). specialize (Ho is_step ltac:(left)).
  rewrite Hcnt in Ho.
  assert (Hlen : forall j tr,
    length (batch_indices is_step j tr)
    = length (filter (fun e => Is_true (is_step e)) tr)).
  { clear. intros j tr. revert j. induction tr as [|e tr IH]; intros j; [done|].
    cbn [batch_indices]. destruct e; cbn;
      rewrite ?filter_cons_True, ?filter_cons_False by (cbn; tauto);
      cbn; by rewrite ?IH. }
  rewrite <- (Hlen (0 - 1)), Ho. unfold len. apply count_fires. done.
Qed.

(** ** What evaluation and training leave alone *)

Lemma same_setup_refl w : same_setup w w.
Proof. done. Qed.

Lemma same_setup_trans w1 w2 w3 :
  same_setup w1 w2 -> same_setup w2 w3 -> same_setup w1 w3.
Proof.
  unfold same_setup. intros (?&?&?&?) (?&?&?&?).
  repeat split; congruence.
Qed.

Lemma same_training_state_trans w1 w2 w3 :
  same_training_state w1 w2 -> same_training_state w2 w3 ->
  same_training_state w1 w3.
Proof.
  unfold same_training_state. intros (?&?&?&?&?) (?&?&?&?&?).
  repeat split; congruence.
Qed.

Lemma evaluation_only_refl w : evaluation_only w w.
Proof. repeat split. apply appends_refl. Qed.

Lemma evaluation_only_trans w1 w2 w3 :
  evaluation_only w1 w2 -> evaluation_only w2 w3 -> evaluation_only w1 w3.
Proof.
  intros (?&?&?) (?&?&?). split; [by eapply same_setup_trans|].
  split; [by eapply same_training_state_trans | by eapply appends_trans].
Qed.

Ltac solve_appends :=
  unfold appends; rewrite <- ?app_assoc; cbn;
  first [ eexists; split; [reflexivity|]
        | exists []; split; [by rewrite app_nil_r|] ];
  repeat constructor.

Lemma test_body_evaluation_only b w : evaluation_only w (test_body b w).1.
Proof.
  unfold evaluation_only, same_setup, same_training_state. exec.
  all: split; [done|]; split; [done|]; solve_appends.
Qed.

Lemma train_eval_block_evaluation_only n i v w :
  evaluation_only w (train_eval_block n i v w).1.
Proof.
  unfold evaluation_only, same_setup, same_training_state. exec.
  all: split; [done|]; split; [done|]; solve_appends.
Qed.

Lemma test_evaluation_only dl w : evaluation_only w (test dl w).1.
Proof.
  unfold test, model_eval, model_train.
  unfold mbind, M_bind, bind, emit, update_self, modify. cbn.
  set (w1 := {| self := _; ext := _ |}).
  assert (H1 : evaluation_only w w1).
  { subst w1. unfold evaluation_only, same_setup, same_training_state. cbn.
    split; [done|]. split; [done|]. solve_appends. }
  pose proof (test_loop_rel evaluation_only evaluation_only_refl
    evaluation_only_trans dl
    ltac:(intros; apply test_body_evaluation_only) dl w1 ltac:(done)) as H2.
  destruct (test_loop dl w1) as [w2 [[]| |]]; cbn in H2 |- *.
  - eapply evaluation_only_trans; [exact H1|].
    eapply evaluation_only_trans; [exact H2|].
    unfold evaluation_only, same_setup, same_training_state. cbn.
    split; [done|]. split; [done|]. solve_appends.
  - by eapply evaluation_only_trans.
  - by eapply evaluation_only_trans.
Qed.

(** X5: [test] and the validation block of [train] only evaluate: they make no
    backward pass and no call of the optimizer step, read and write no
    checkpoint, and leave the gradients, the optimizer, the scaler, both
    counters, the hyper-parameters, the device and the context as they
    were. *)
Theorem evaluation_has_no_training_effect :
  (forall dl w, evaluation_only w (test dl w).1) /\
  (forall n i v w, evaluation_only w (train_eval_block n i v w).1).
Proof.
  split; [exact test_evaluation_only | exact train_eval_block_evaluation_only].
Qed.

Lemma train_body_setup n i t v w :
  same_setup w (train_body dbg n i t v w).1 /\
  appends no_file_call w (train_body dbg n i t v w).1.
Proof.
  unfold same_setup. exec.
  all: split; [done|]; solve_appends.
Qed.

Lemma train_setup_frame fuel (tl vl : list Batch) w :
  same_setup w (train dbg fuel tl vl w).1 /\
  appends no_file_call w (train dbg fuel tl vl w).1.
Proof.
  apply (train_rel (fun a b => same_setup a b /\ appends no_file_call a b)).
  - intros a. split; [done | apply appends_refl].
  - intros a b c [? ?] [? ?]. split;
      [by eapply same_setup_trans | by eapply appends_trans].
  - intros n i t v w' _. apply train_body_setup.
  - intros k w'. split; [done | by apply appends_same_ext].
Qed.

(** X14: [train] reads and writes no checkpoint and leaves the checkpoint files,
    the hyper-parameters, the device and the context as they were. *)
Theorem train_keeps_setup fuel (tl vl : list Batch) w :
  same_setup w (train dbg fuel tl vl w).1 /\
  Forall no_file_call (new_events w (train dbg fuel tl vl w).1).
Proof.
  destruct (train_setup_frame fuel tl vl w) as [H1 H2].
  split; [done | by apply appends_new_events].
Qed.

(** ** The steps of the dashboard records *)

Lemma log_steps_app E1 E2 : log_steps (E1 ++ E2) = log_steps E1 ++ log_steps E2.
Proof. unfold log_steps. apply omap_app. Qed.

Lemma logs_in_order_refl w : logs_in_order w w.
Proof.
  split; [lia|]. split; [done|]. exists []. rewrite app_nil_r.
  repeat split; constructor.
Qed.

Lemma logs_in_order_trans w1 w2 w3 :
  logs_in_order w1 w2 -> logs_in_order w2 w3 -> logs_in_order w1 w3.
Proof.
  intros (Hi1 & He1 & E1 & Ht1 & Hs1 & Hb1 & Hp1)
         (Hi2 & He2 & E2 & Ht2 & Hs2 & Hb2 & Hp2).
  split; [lia|]. split; [congruence|]. exists (E1 ++ E2).
  split; [by rewrite Ht2, Ht1, app_assoc|].
  rewrite log_steps_app. split; [|split].
  - apply StronglySorted_app. split; [|done].
    intros s1 s2 H1 H2.
    rewrite Forall_forall in Hb1. rewrite Forall_forall in Hb2.
    specialize (Hb1 _ H1). specialize (Hb2 _ H2). lia.
  - apply Forall_app. split.
    + eapply Forall_impl; [exact Hb1|]. cbn. intros; lia.
    + eapply Forall_impl; [exact Hb2|]. cbn. intros; lia.
  - apply Forall_app. split; [done|].
    eapply Forall_impl; [exact Hp2|]. intros e. by rewrite He1.
Qed.

Lemma train_body_logs n i t v w : logs_in_order w (train_body dbg n i t v w).1.
Proof.
  unfold logs_in_order. exec.
  all: split; [lia|]; split; [done|].
  all: rewrite <- ?app_assoc; cbn.
  all: first [ eexists; split; [reflexivity|]
             | exists []; split; [by rewrite app_nil_r|] ].
  all: cbn; split; [|split].
  all: repeat first [ apply SSorted_nil | apply SSorted_cons
                    | apply Forall_nil_2 | apply Forall_cons_2
                    | lia | exact I | by rewrite lookup_insert_eq ].
Qed.

(** X7: the dashboard records of a call of [train] come in non-decreasing
    step order, at steps between the iteration count before the call and
    the one after it, and all carry the epoch count the call started with
    (the counter is incremented after the loop). *)
Theorem train_publishes_in_step_order fuel (tl vl : list Batch) w :
  let r := train dbg fuel tl vl w in
  let E := new_events w r.1 in
  StronglySorted Z.le (log_steps E) /\
  Forall (fun s => iters_so_far (self w) <= s <= iters_so_far (self r.1))
         (log_steps E) /\
  Forall (fun e => match e with
                   | EvWandbLog d _ =>
                       d !! "epoch"%string
                       = Some (DInt (epochs_so_far (self w)))
                   | _ => True
                   end) E.
Proof.
  cbn zeta. unfold train, mbind, M_bind, bind.
  pose proof (train_loop_rel logs_in_order logs_in_order_refl
    logs_in_order_trans fuel (len tl) tl vl
    ltac:(intros; apply train_body_logs) 0 None w ltac:(by intros ? [=]))
    as (Hi & He & E & Htr & Hs & Hb & Hp).
  destruct (train_loop dbg fuel (len tl) 0 tl vl None w) as [w1 [[]| |]];
    cbn in *; by erewrite new_events_app by exact Htr.
Qed.

Lemma test_body_logs b w :
  exists E,
    trace (ext (test_body b w).1) = trace (ext w) ++ E /\
    Forall (logged_at (epochs_so_far (self w)) (iters_so_far (self w))) E /\
    log_steps E = [iters_so_far (self w)].
Proof.
  exec.
  all: rewrite <- ?app_assoc; cbn.
  all: eexists; (split; [reflexivity|]).
  all: split; [|reflexivity].
  all: repeat constructor; by rewrite lookup_insert_eq.
Qed.

Lemma test_loop_logs dl : forall w,
  exists E,
    trace (ext (test_loop dl w).1) = trace (ext w) ++ E /\
    Forall (logged_at (epochs_so_far (self w)) (iters_so_far (self w))) E /\
    ((test_loop dl w).2 = Ok tt ->
     log_steps E = replicate (length dl) (iters_so_far (self w))).
Proof.
  induction dl as [|b dl IH]; intros w.
  { exists []. cbn. by rewrite app_nil_r. }
  cbn [test_loop]. unfold mbind, M_bind, bind.
  destruct (test_body_logs b w) as (Eb & Htr & Hl & Hs).
  destruct (test_body_counters b w) as [Hi He].
  destruct (test_body b w) as [w1 [[]| |]]; cbn in Htr, Hi, He.
  - destruct (IH w1) as (Er & Htr' & Hl' & Hs'). rewrite Hi, He in Hl'.
    rewrite Hi in Hs'.
    exists (Eb ++ Er). split; [by rewrite Htr', Htr, app_assoc|].
    split; [by apply Forall_app|].
    intros Hok. rewrite log_steps_app, Hs, (Hs' Hok). done.
  - exists Eb. cbn. by repeat split.
  - exists Eb. cbn. by repeat split.
Qed.

(** X6: [test] publishes every record at the same step, the current iteration
    count, and for the current epoch ([test] advances no counter); when it
    returns it has published one record per batch. *)
Theorem test_publishes_at_one_step (dl : list Batch) w :
  let E := new_events w (test dl w).1 in
  Forall (logged_at (epochs_so_far (self w)) (iters_so_far (self w))) E /\
  ((test dl w).2 = Ok tt ->
   log_steps E = replicate (length dl) (iters_so_far (self w))).
Proof.
  cbn zeta. unfold test, model_eval, model_train.
  unfold mbind, M_bind, bind, emit, update_self, modify. cbn.
  set (w1 := {| self := _; ext := _ |}).
  destruct (test_loop_logs dl w1) as (E & Htr & Hl & Hs).
  destruct (test_loop dl w1) as [w2 [[]| |]]; cbn in Htr, Hs |- *.
  - rewrite (new_events_app _ _ ([EvModelEval] ++ E ++ [EvModelTrain])).
    + split.
      * apply Forall_app. split; [by repeat constructor|].
        apply Forall_app. split; [done | by repeat constructor].
      * intros _. rewrite !log_steps_app, (Hs eq_refl). cbn.
        by rewrite app_nil_r.
    + rewrite Htr. subst w1. cbn. by rewrite <- !app_assoc.
  - rewrite (new_events_app _ _ ([EvModelEval] ++ E)).
    + split; [|done]. apply Forall_app. split; [by repeat constructor|done].
    + rewrite Htr. subst w1. cbn. by rewrite <- !app_assoc.
  - rewrite (new_events_app _ _ ([EvModelEval] ++ E)).
    + split; [|done]. apply Forall_app. split; [by repeat constructor|done].
    + rewrite Htr. subst w1. cbn. by rewrite <- !app_assoc.
Qed.

(** ** Checkpoints over time *)

Lemma keeps_file_save path k path' k' :
  keeps_file (model_path path k) (CallSave path' k')
  <-> path' <> path \/ k' <> k.
Proof.
  cbn. split.
  - intros Hne. destruct (decide (path' = path)) as [->|]; [|by left].
    destruct (decide (k' = k)) as [->|]; [done | by right].
  - intros Hor Heq. apply model_path_inj in Heq as [-> ->]. by destruct Hor.
Qed.

Lemma run_call_keeps_file file c w :
  keeps_file file c ->
  files (ext (run_call dbg c w).1) !! file = files (ext w) !! file.
Proof.
  intros Hk. destruct c as [fuel tl vl|dl|path k|path k|amb x y|m mode];
    cbn [run_call].
  - destruct (train_setup_frame fuel tl vl w) as [(_ & _ & _ & ->) _]. done.
  - destruct (test_evaluation_only dl w) as [(_ & _ & _ & ->) _]. done.
  - rewrite save_spec. cbn. cbn in Hk. by rewrite lookup_insert_ne.
  - rewrite load_spec. by destruct (files (ext w) !! model_path path k).
  - by exec.
  - by exec.
Qed.

Lemma run_calls_keep_file file cs : forall w,
  Forall (keeps_file file) cs ->
  files (ext (run_calls dbg cs w)) !! file = files (ext w) !! file.
Proof.
  induction cs as [|c cs IH]; intros w Hcs; [done|].
  apply Forall_cons in Hcs as [Hc Hcs]. cbn [run_calls].
  pose proof (run_call_keeps_file file c w Hc) as Hf.
  destruct (run_call dbg c w) as [w1 [| |]]; cbn in Hf;
    rewrite <- Hf; try done; by apply IH.
Qed.

(** X12: a checkpoint survives what comes after it: after [save(p, k)], any
    sequence of calls on the object ([train], [test], [load], [save] under
    another path or epoch, also ones that raise) leaves the file as it is, and
    [load(p, k)] then succeeds and restores exactly the saved state dict,
    keeping the optimizer, the scaler and the counters the object has by
    then. *)
Theorem checkpoint_survives_later_calls path k cs w :
  Forall (keeps_file (model_path path k)) cs ->
  let w2 := run_calls dbg cs (save path k w).1 in
  let r := load path k w2 in
  r.2 = Ok tt /\
  state_dict (model (self r.1)) = state_dict (model (self w)) /\
  opt (self r.1) = opt (self w2) /\
  scaler (self r.1) = scaler (self w2) /\
  same_counters w2 r.1 /\
  (forall path' k',
     keeps_file (model_path path k) (CallSave path' k')
     <-> path' <> path \/ k' <> k).
Proof.
  intros Hcs. cbn zeta. rewrite load_spec.
  rewrite (run_calls_keep_file _ _ _ Hcs), save_spec. cbn.
  rewrite lookup_insert_eq. cbn.
  do 5 (split; [done|]). intros. apply keeps_file_save.
Qed.

(** X13: the file name separates checkpoints: after [save(p, k)], [load] with
    another path or epoch for which no file exists raises
    [FileNotFoundError] for that file and changes nothing of the object. *)
Theorem load_of_another_checkpoint_raises path k path' k' w :
  path' <> path \/ k' <> k ->
  files (ext w) !! model_path path' k' = None ->
  let r := load path' k' (save path k w).1 in
  r.2 = Raise (FileNotFoundError (model_path path' k')) /\
  self r.1 = self w.
Proof.
  intros Hne Hnone. cbn zeta. rewrite load_spec, save_spec. cbn.
  rewrite lookup_insert_ne, Hnone; [done|].
  intros Heq. apply model_path_inj in Heq as [-> ->]. by destruct Hne.
Qed.

(** ** The debug level *)

(** X15: the debug level is clamped: whatever DEBUG_LVL holds, it is between 0
    and 3, and [DEBUG] is on exactly when it is 2 or 3. *)
Theorem debug_lvl_is_clamped environ :
  0 <= debug_lvl environ <= 3 /\
  (DEBUG environ = true <-> debug_lvl environ = 2 \/ debug_lvl environ = 3).
Proof.
  assert (Hr : 0 <= debug_lvl environ <= 3).
  { unfold debug_lvl, clip.
    destruct environ as [s|]; [destruct (int_of_str s)|]; lia. }
  split; [done|]. unfold DEBUG. rewrite Z.leb_le. lia.
Qed.

End Proofs.

(** * Concrete runs

    The theorems at the small framework of [Demo]: five training batches,
    two validation batches, [acc_grad_steps = 2], [eval_every = 3] and
    [clip_norm = 0]. *)

Example int_of_str_examples :
  int_of_str "2" = Some 2 /\ int_of_str " +1_0 " = Some 10 /\
  int_of_str "-3" = Some (-3) /\ int_of_str "abc" = None /\
  int_of_str "" = None /\ int_of_str "2.5" = None /\ int_of_str "1__0" = None.
Proof. vm_compute. repeat split. Qed.

Example int_of_str_separator_bytes :
  int_of_str (String (ascii_of_nat 28) "2") = None /\
  int_of_str (String (ascii_of_nat 31) "2") = None /\
  int_of_str (String (ascii_of_nat 9) "2") = Some 2 /\
  int_of_str (String (ascii_of_nat 13) "2") = Some 2.
Proof. vm_compute. repeat split. Qed.

Example DEBUG_examples :
  DEBUG None = false /\ DEBUG (Some "0") = false /\ DEBUG (Some "1") = false /\
  DEBUG (Some "2") = true /\ DEBUG (Some "3") = true /\
  DEBUG (Some "99") = true /\ DEBUG (Some "-7") = false /\
  DEBUG (Some "verbose") = false.
Proof. vm_compute. repeat split. Qed.

Example model_path_example :
  model_path ["runs"; "exp1"] 12 = ["runs"; "exp1"; "model_12.tar"].
Proof. reflexivity. Qed.

(** With [acc_grad_steps = 2] and five batches the optimizer steps at
    indices 1, 3 and 4. *)
Lemma train_optimizer_step_schedule_witness :
  acc_grad_steps (hps (self Demo.w0)) <> 0 /\
  batch_indices is_step (-1)
    (new_events Demo.w0
       (@train (Demo.toy Demo.dash_up) None 5 Demo.train5 Demo.val2 Demo.w0).1)
  = [1; 3; 4].
Proof.
  assert (H : acc_grad_steps (hps (self Demo.w0)) <> 0) by (vm_compute; lia).
  split; [exact H|].
  destruct (@train_optimizer_step_schedule (Demo.toy Demo.dash_up) None 5
              Demo.train5 Demo.val2 Demo.w0 H) as (_ & _ & Ho & _).
  rewrite (Ho is_step); [vm_compute; reflexivity | left].
Defined.

(** A returning [train] over five batches adds five iterations and one
    epoch. *)
Lemma counters_count_batches_and_epochs_witness :
  (@train (Demo.toy Demo.dash_up) None 5 Demo.train5 Demo.val2 Demo.w0).2
  = Ok tt /\
  iters_so_far (self (@train (Demo.toy Demo.dash_up) None 5 Demo.train5
                        Demo.val2 Demo.w0).1)
  = iters_so_far (self Demo.w0) + 5 /\
  epochs_so_far (self (@train (Demo.toy Demo.dash_up) None 5 Demo.train5
                         Demo.val2 Demo.w0).1)
  = epochs_so_far (self Demo.w0) + 1.
Proof.
  assert (H : (@train (Demo.toy Demo.dash_up) None 5 Demo.train5 Demo.val2
                 Demo.w0).2 = Ok tt) by (vm_compute; reflexivity).
  split; [exact H|].
  destruct (@counters_count_batches_and_epochs (Demo.toy Demo.dash_up) None)
    as (_ & Htrain & _).
  destruct (Htrain 5%nat Demo.train5 Demo.val2 Demo.w0) as (Hok & _).
  exact (Hok H).
Defined.

(** C5 fails as stated: an empty validation loader yields fewer batches
    than the training loader, yet it is not cycled into pairs: [train] does
    not return whatever time the chained iterator is given, and no pair is
    processed. *)
Lemma empty_validation_loader_gives_no_pair :
  (length (@nil (@Batch (Demo.toy Demo.dash_up))) < length Demo.train5)%nat /\
  ~ (exists fuel,
       (@train (Demo.toy Demo.dash_up) None fuel Demo.train5 [] Demo.w0).2
       <> Hang) /\
  @train (Demo.toy Demo.dash_up) None 7 Demo.train5 [] Demo.w0
  = (Demo.w0, Hang) /\
  iters_so_far (self
    (@train (Demo.toy Demo.dash_up) None 7 Demo.train5 [] Demo.w0).1)
  = iters_so_far (self Demo.w0).
Proof.
  split; [cbn; lia|]. split; [|split; vm_compute; reflexivity].
  intros [fuel Hret]. apply Hret.
  unfold train, Demo.train5. cbn [train_loop].
  by rewrite chain_next_empty.
Qed.

(** Two validation batches serve five training batches. *)
Lemma validation_loader_is_cycled_witness :
  Demo.val2 <> [] /\ (3 <= 5)%nat /\
  length (@cyclic_pairs (Demo.toy Demo.dash_up) Demo.train5 Demo.val2) = 5%nat /\
  (@train (Demo.toy Demo.dash_up) None 5 Demo.train5 Demo.val2 Demo.w0).2 <> Hang.
Proof.
  assert (Hv : Demo.val2 <> []) by (vm_compute; discriminate).
  assert (Hf : (3 <= 5)%nat) by lia.
  split; [exact Hv|]. split; [exact Hf|].
  destruct (@validation_loader_is_cycled (Demo.toy Demo.dash_up) None 5
              Demo.train5 Demo.val2 Demo.w0 Hv Hf) as (_ & Hl & _ & Hr & _).
  split; [exact Hl | exact Hr].
Defined.

(** With [clip_norm = 0] the run neither unscales nor clips. *)
Lemma clipping_disabled_is_not_an_error_witness :
  (clip_norm Demo.hps0 <= 0)%Q /\
  Forall no_clip
    (new_events Demo.w0
       (@train (Demo.toy Demo.dash_up) None 5 Demo.train5 Demo.val2 Demo.w0).1).
Proof.
  assert (Hc : (clip_norm Demo.hps0 <= 0)%Q) by (vm_compute; discriminate).
  split; [exact Hc|].
  destruct (@clipping_disabled_is_not_an_error (Demo.toy Demo.dash_up) None
              "cpu" Demo.hps0 Hc) as (_ & _ & Ht).
  apply Ht. vm_compute. reflexivity.
Defined.

(** [test] that returns leaves the model in training mode. *)
Lemma mode_restored_when_evaluation_returns_witness :
  (@test (Demo.toy Demo.dash_up) Demo.val2 Demo.w0).2 = Ok tt /\
  training (model (self (@test (Demo.toy Demo.dash_up) Demo.val2 Demo.w0).1))
  = true.
Proof.
  assert (H : (@test (Demo.toy Demo.dash_up) Demo.val2 Demo.w0).2 = Ok tt)
    by (vm_compute; reflexivity).
  split; [exact H|].
  destruct (@mode_restored_when_evaluation_returns (Demo.toy Demo.dash_up) None)
    as (Htest & _).
  destruct (Htest Demo.val2 Demo.w0) as (Hok & _).
  exact (Hok H).
Defined.

(** C7 fails as stated: the model is left in eval mode when the dashboard
    call inside the validation block of [train], or inside [test], raises,
    and it is still in eval mode when the caller goes on after catching the
    exception. *)
Lemma eval_mode_left_after_exception :
  training (model (self Demo.w1)) = true /\
  (@train (Demo.toy Demo.dash_no_eval) None 5 Demo.train5 Demo.val2 Demo.w1).2
  = Raise WandbError /\
  training (model (self
    (@train (Demo.toy Demo.dash_no_eval) None 5 Demo.train5 Demo.val2
       Demo.w1).1)) = false /\
  (@test (Demo.toy Demo.dash_no_eval) Demo.val2 Demo.w1).2 = Raise WandbError /\
  training (model (self
    (@test (Demo.toy Demo.dash_no_eval) Demo.val2 Demo.w1).1)) = false /\
  training (model (self
    (@run_calls (Demo.toy Demo.dash_no_eval) None
       [@CallTrain (Demo.toy Demo.dash_no_eval) 5 Demo.train5 Demo.val2;
        @CallSave (Demo.toy Demo.dash_no_eval) ["ckpt"] 0] Demo.w1))) = false.
Proof. vm_compute. repeat split. Qed.

(** With DEBUG_LVL=2 the first batch of [train] raises the
    [AttributeError]. *)
Lemma debug_branch_reads_missing_scheduler_witness :
  DEBUG (Some "2") = true /\
  (@train (Demo.toy Demo.dash_up) (Some "2") 5 Demo.train5 Demo.val2 Demo.w0).2
  = Raise (AttributeError "Classifier" "scheduler").
Proof.
  assert (Hd : DEBUG (Some "2") = true) by (vm_compute; reflexivity).
  split; [exact Hd|].
  destruct (@debug_branch_reads_missing_scheduler (Demo.toy Demo.dash_up)
              (Some "2")) as (_ & _ & _ & Hon & _).
  destruct (Hon Hd 5%nat Demo.train5 Demo.val2 Demo.w0) as (_ & _ & Hraise).
  { vm_compute. discriminate. }
  apply Hraise.
  - vm_compute. discriminate.
  - lia.
  - vm_compute. lia.
  - vm_compute. lia.
  - intros d s. reflexivity.
Defined.

(** [train] returns with two validation batches and does not return with
    none. *)
Lemma train_returns_iff_validation_nonempty_witness :
  Demo.train5 <> [] /\
  (@train (Demo.toy Demo.dash_up) None 7 Demo.train5 Demo.val2 Demo.w0).2 <> Hang /\
  @train (Demo.toy Demo.dash_up) None 7 Demo.train5 [] Demo.w0 = (Demo.w0, Hang).
Proof.
  assert (Ht : Demo.train5 <> []) by (vm_compute; discriminate).
  split; [exact Ht|].
  split.
  - destruct (@train_returns_iff_validation_nonempty (Demo.toy Demo.dash_up)
                None Demo.train5 Demo.val2 Demo.w0 Ht) as (Hne & _).
    destruct (Hne ltac:(vm_compute; discriminate) 7%nat ltac:(lia)) as (Hr & _).
    exact Hr.
  - destruct (@train_returns_iff_validation_nonempty (Demo.toy Demo.dash_up)
                None Demo.train5 [] Demo.w0 Ht) as (_ & He).
    exact (He eq_refl 7%nat).
Defined.

(** ** Further runs *)

(** With [eval_every = 3] and five batches validation runs at indices 2
    and 4. *)
Lemma train_validation_schedule_witness :
  acc_grad_steps (hps (self Demo.w0)) <> 0 /\
  eval_every (hps (self Demo.w0)) <> 0 /\
  batch_indices is_metrics (-1)
    (new_events Demo.w0
       (@train (Demo.toy Demo.dash_up) None 5 Demo.train5 Demo.val2 Demo.w0).1)
  = [2; 4].
Proof.
  assert (Ha : acc_grad_steps (hps (self Demo.w0)) <> 0) by (vm_compute; lia).
  assert (He : eval_every (hps (self Demo.w0)) <> 0) by (vm_compute; lia).
  split; [exact Ha|]. split; [exact He|].
  destruct (@train_validation_schedule (Demo.toy Demo.dash_up) None 5
              Demo.train5 Demo.val2 Demo.w0 Ha He (fun _ _ => eq_refl))
    as (_ & _ & Hp).
  rewrite (Hp is_metrics); [vm_compute; reflexivity | right; left].
Defined.

(** At index 1 of five batches, with [acc_grad_steps = 2], the block steps
    and leaves no gradient. *)
Lemma optimizer_step_order_witness :
  acc_grad_steps (hps (self Demo.w0)) <> 0 /\
  grad (model (self
    (@train_opt_block (Demo.toy Demo.dash_up) 5 1 ∅ Demo.w0).1)) = 0.
Proof.
  assert (Ha : acc_grad_steps (hps (self Demo.w0)) <> 0) by (vm_compute; lia).
  split; [exact Ha|].
  pose proof (@optimizer_step_order (Demo.toy Demo.dash_up) 5 1 ∅ Demo.w0 Ha)
    as H.
  cbn zeta in H.
  assert (Hf : fires (acc_grad_steps (hps (self Demo.w0))) 5 1 = true)
    by (vm_compute; reflexivity).
  rewrite Hf in H. destruct H as (_ & Hg & _). exact Hg.
Defined.

(** The record of the second batch carries the loss 2 divided by 2. *)
Lemma train_record_has_divided_loss_witness :
  acc_grad_steps (hps (self Demo.w0)) <> 0 /\
  Forall (fun e =>
            match e with
            | EvWandbLog d s =>
                is_train_log e = true ->
                s = 0 /\
                d !! "train/loss"%string = Some (DFloat 1) /\
                d !! "epoch"%string = Some (DInt 0) /\
                (forall key, key <> "train/loss"%string ->
                             key <> "epoch"%string -> d !! key = None)
            | _ => True
            end)
         (new_events Demo.w0
            (@train_body (Demo.toy Demo.dash_up) None 5 1 ([2], [0])
               ([0; 2], [0; 1]) Demo.w0).1).
Proof.
  assert (Ha : acc_grad_steps (hps (self Demo.w0)) <> 0) by (vm_compute; lia).
  split; [exact Ha|].
  exact (@train_record_has_divided_loss (Demo.toy Demo.dash_up) None 5 1
           ([2], [0]) ([0; 2], [0; 1]) Demo.w0 Ha).
Defined.

(** With [acc_grad_steps = 0] the run raises in its first batch. *)
Lemma train_zero_acc_grad_steps_witness :
  acc_grad_steps (hps (self Demo.w_acc0)) = 0 /\
  Demo.train5 <> [] /\ Demo.val2 <> [] /\ (2 <= 5)%nat /\
  (@train (Demo.toy Demo.dash_up) None 5 Demo.train5 Demo.val2 Demo.w_acc0).2
  = Raise ZeroDivisionError.
Proof.
  assert (Ha : acc_grad_steps (hps (self Demo.w_acc0)) = 0)
    by (vm_compute; reflexivity).
  assert (Ht : Demo.train5 <> []) by (vm_compute; discriminate).
  assert (Hv : Demo.val2 <> []) by (vm_compute; discriminate).
  assert (Hf : (2 <= 5)%nat) by lia.
  do 4 (split; [assumption|]).
  destruct (@train_zero_acc_grad_steps (Demo.toy Demo.dash_up) None 5
              Demo.train5 Demo.val2 Demo.w_acc0 Ha Ht Hv Hf) as (Hr & _).
  exact Hr.
Defined.

(** With [eval_every = 0] the run raises in its first batch. *)
Lemma train_zero_eval_every_witness :
  acc_grad_steps (hps (self Demo.w_eval0)) <> 0 /\
  eval_every (hps (self Demo.w_eval0)) = 0 /\
  Demo.train5 <> [] /\ Demo.val2 <> [] /\ (2 <= 5)%nat /\
  (@train (Demo.toy Demo.dash_up) None 5 Demo.train5 Demo.val2 Demo.w_eval0).2
  = Raise ZeroDivisionError.
Proof.
  assert (Ha : acc_grad_steps (hps (self Demo.w_eval0)) <> 0)
    by (vm_compute; lia).
  assert (He : eval_every (hps (self Demo.w_eval0)) = 0)
    by (vm_compute; reflexivity).
  assert (Ht : Demo.train5 <> []) by (vm_compute; discriminate).
  assert (Hv : Demo.val2 <> []) by (vm_compute; discriminate).
  assert (Hf : (2 <= 5)%nat) by lia.
  do 5 (split; [assumption|]).
  destruct (@train_zero_eval_every (Demo.toy Demo.dash_up) None 5
              Demo.train5 Demo.val2 Demo.w_eval0 Ha He (fun _ _ => eq_refl)
              Ht Hv Hf) as (Hr & _).
  exact Hr.
Defined.

(** A returning run leaves no gradient. *)
Lemma train_leaves_no_gradient_witness :
  Demo.train5 <> [] /\
  (@train (Demo.toy Demo.dash_up) None 5 Demo.train5 Demo.val2 Demo.w0).2
  = Ok tt /\
  grad (model (self
    (@train (Demo.toy Demo.dash_up) None 5 Demo.train5 Demo.val2 Demo.w0).1))
  = 0.
Proof.
  assert (Ht : Demo.train5 <> []) by (vm_compute; discriminate).
  assert (Hok : (@train (Demo.toy Demo.dash_up) None 5 Demo.train5 Demo.val2
                   Demo.w0).2 = Ok tt) by (vm_compute; reflexivity).
  split; [exact Ht|]. split; [exact Hok|].
  exact (@train_leaves_no_gradient (Demo.toy Demo.dash_up) None 5 Demo.train5
           Demo.val2 Demo.w0 Ht Hok).
Defined.

(** Five batches with [acc_grad_steps = 2] make three optimizer steps. *)
Lemma train_number_of_optimizer_steps_witness :
  0 < acc_grad_steps (hps (self Demo.w0)) /\
  (@train (Demo.toy Demo.dash_up) None 5 Demo.train5 Demo.val2 Demo.w0).2
  = Ok tt /\
  Z.of_nat (length (filter (fun e => Is_true (is_step e))
    (new_events Demo.w0
       (@train (Demo.toy Demo.dash_up) None 5 Demo.train5 Demo.val2
          Demo.w0).1))) = 3.
Proof.
  assert (Ha : 0 < acc_grad_steps (hps (self Demo.w0)))
    by (vm_compute; reflexivity).
  assert (Hok : (@train (Demo.toy Demo.dash_up) None 5 Demo.train5 Demo.val2
                   Demo.w0).2 = Ok tt) by (vm_compute; reflexivity).
  split; [exact Ha|]. split; [exact Hok|].
  rewrite (@train_number_of_optimizer_steps (Demo.toy Demo.dash_up) None 5
             Demo.train5 Demo.val2 Demo.w0 Ha Hok).
  vm_compute. reflexivity.
Defined.

(** The checkpoint of epoch 0 is restored after a [train], a [save] of
    epoch 1 and a [test]. *)
Lemma checkpoint_survives_later_calls_witness :
  Forall (@keeps_file (Demo.toy Demo.dash_up) (model_path ["ckpt"] 0))
    [@CallTrain (Demo.toy Demo.dash_up) 5 Demo.train5 Demo.val2;
     @CallSave (Demo.toy Demo.dash_up) ["ckpt"] 1;
     @CallTest (Demo.toy Demo.dash_up) Demo.val2] /\
  state_dict (model (self
    (@load (Demo.toy Demo.dash_up) ["ckpt"] 0
       (@run_calls (Demo.toy Demo.dash_up) None
          [@CallTrain (Demo.toy Demo.dash_up) 5 Demo.train5 Demo.val2;
           @CallSave (Demo.toy Demo.dash_up) ["ckpt"] 1;
           @CallTest (Demo.toy Demo.dash_up) Demo.val2]
          (@save (Demo.toy Demo.dash_up) ["ckpt"] 0 Demo.w0).1)).1))
  = state_dict (model (self Demo.w0)).
Proof.
  assert (Hk : Forall (@keeps_file (Demo.toy Demo.dash_up)
                         (model_path ["ckpt"] 0))
    [@CallTrain (Demo.toy Demo.dash_up) 5 Demo.train5 Demo.val2;
     @CallSave (Demo.toy Demo.dash_up) ["ckpt"] 1;
     @CallTest (Demo.toy Demo.dash_up) Demo.val2]).
  { repeat constructor. vm_compute. discriminate. }
  split; [exact Hk|].
  destruct (@checkpoint_survives_later_calls (Demo.toy Demo.dash_up) None
              ["ckpt"] 0 _ Demo.w0 Hk) as (_ & Hsd & _).
  exact Hsd.
Defined.

(** After saving epoch 0 only, loading epoch 1 raises. *)
Lemma load_of_another_checkpoint_raises_witness :
  (["ckpt"] <> ["ckpt"] \/ 1 <> 0) /\
  files (ext Demo.w0) !! model_path ["ckpt"] 1 = None /\
  (@load (Demo.toy Demo.dash_up) ["ckpt"] 1
     (@save (Demo.toy Demo.dash_up) ["ckpt"] 0 Demo.w0).1).2
  = Raise (FileNotFoundError ["ckpt"; "model_1.tar"]).
Proof.
  assert (Hne : ["ckpt"] <> ["ckpt"] \/ 1 <> 0) by (right; discriminate).
  assert (Hnone : files (ext Demo.w0) !! model_path ["ckpt"] 1 = None)
    by (vm_compute; reflexivity).
  split; [exact Hne|]. split; [exact Hnone|].
  destruct (@load_of_another_checkpoint_raises (Demo.toy Demo.dash_up)
              ["ckpt"] 0 ["ckpt"] 1 Demo.w0 Hne Hnone) as (Hr & _).
  exact Hr.
Defined.
